(** * The LangGraph agent of [agents_intro/3_langgraph_agent.py]

    A shallow embedding of the routed tool-calling agent: the knowledge-base
    tool, the three graph nodes ([node_llm], [node_tools],
    [node_out_of_domain]), the two routing functions ([route_domain_llm],
    [route_after_llm]) and the compiled graph that wires them together.

    Conventions.
    - A Python [str] is a [string] in the agent model; a character is a code
      point below 256 (Latin-1), on which [str.lower] and [str.strip] are
      given exactly.  The knowledge-base lookup is given a second time on
      sequences of arbitrary code points (module [Unicode]), and the two
      agree where both apply.
    - A Python [int] is a [Z] (no wrap-around).
    - A raised exception is the [Err] case of [result]; nothing in the nodes
      catches one, except the [try] of [route_domain_llm].
    - The language model, the Wikipedia runner and [json.loads] are external:
      they are the fields of [env].
    - Every node entry and every [tool_fn.invoke] is recorded in a trace of
      [event]s, so that "is never invoked" can be stated. *)

From Stdlib Require Import ZArith Ascii String List Bool Lia.
From stdpp Require Import base option list strings gmap pretty.

Set Warnings "-register-all".
Local Open Scope Z_scope.

(* ===================================================================== *)
(** ** Python strings *)
(* ===================================================================== *)

Module PyStr.

(** The double quote, which string literals cannot hold directly. *)
Definition dq : string := String (ascii_of_N 34) EmptyString.

(** The backslash and the line feed. *)
Definition bs : string := String (ascii_of_N 92) EmptyString.
Definition nl : string := String (ascii_of_N 10) EmptyString.

(** [str.isspace] on one code point below 256: TAB..CR, FS..US, space,
    NEL (0x85) and NBSP (0xA0). *)
Definition isspace (c : ascii) : bool :=
  let n := N_of_ascii c in
  ((9 <=? n) && (n <=? 13) || (28 <=? n) && (n <=? 32)
   || (n =? 133) || (n =? 160))%N.

(** [str.lower] on one code point below 256: A..Z and the Latin-1 capitals
    0xC0..0xDE (the multiplication sign 0xD7 apart) move up by 32. *)
Definition lower_char (c : ascii) : ascii :=
  let n := N_of_ascii c in
  if ((65 <=? n) && (n <=? 90)
      || (192 <=? n) && (n <=? 222) && negb (n =? 215))%N
  then ascii_of_N (n + 32) else c.

Fixpoint lower (s : string) : string :=
  match s with
  | EmptyString => EmptyString
  | String c r => String (lower_char c) (lower r)
  end.

Fixpoint lstrip (s : string) : string :=
  match s with
  | EmptyString => EmptyString
  | String c r => if isspace c then lstrip r else s
  end.

Fixpoint rstrip (s : string) : string :=
  match s with
  | EmptyString => EmptyString
  | String c r =>
      match rstrip r with
      | EmptyString => if isspace c then EmptyString else String c EmptyString
      | r' => String c r'
      end
  end.

(** [s.strip()] with no argument. *)
Definition strip (s : string) : string := rstrip (lstrip s).

(** A string that does not begin with white space. *)
Definition trimmed_left (s : string) : Prop :=
  match s with
  | EmptyString => True
  | String c _ => isspace c = false
  end.

End PyStr.

(* ===================================================================== *)
(** ** JSON values and [json.dumps] *)
(* ===================================================================== *)

(** What [json.loads] can return and [json.dumps] can print.  A [dict] keeps
    its insertion order, which [json.dumps] follows, so an object is an
    association list.  A float carries its printed form. *)
Inductive json : Type :=
| JNull
| JBool (b : bool)
| JInt (z : Z)
| JFloat (repr : string)
| JStr (s : string)
| JArr (items : list json)
| JObj (fields : list (string * json)).

(** [d.get(key)] on a dict held as an association list. *)
Fixpoint dict_get {V : Type} (key : string) (d : list (string * V)) : option V :=
  match d with
  | [] => None
  | (k, v) :: r => if String.eqb k key then Some v else dict_get key r
  end.

Module Json.
Import PyStr.

Definition hex_digit (n : N) : ascii :=
  ascii_of_N (if (n <? 10)%N then 48 + n else 87 + n).

(** One character inside a JSON string, with [ensure_ascii=True]. *)
Definition escape_char (c : ascii) : string :=
  let n := N_of_ascii c in
  if (n =? 34)%N then bs +:+ dq
  else if (n =? 92)%N then bs +:+ bs
  else if (n =? 10)%N then bs +:+ "n"
  else if (n =? 13)%N then bs +:+ "r"
  else if (n =? 9)%N then bs +:+ "t"
  else if (n =? 8)%N then bs +:+ "b"
  else if (n =? 12)%N then bs +:+ "f"
  else if ((n <? 32) || (126 <? n))%N
       then bs +:+ "u00" +:+ String (hex_digit (n / 16)) (String (hex_digit (n mod 16)) EmptyString)
  else String c EmptyString.

Fixpoint escape (s : string) : string :=
  match s with
  | EmptyString => EmptyString
  | String c r => escape_char c +:+ escape r
  end.

Definition quote (s : string) : string := dq +:+ escape s +:+ dq.

(** [json.dumps(j)] with the default separators [", "] and [": "]. *)
Fixpoint dumps (j : json) : string :=
  match j with
  | JNull => "null"
  | JBool true => "true"
  | JBool false => "false"
  | JInt z => pretty z
  | JFloat r => r
  | JStr s => quote s
  | JArr items =>
      "[" +:+
      (fix items_go (l : list json) : string :=
         match l with
         | [] => EmptyString
         | [x] => dumps x
         | x :: r => dumps x +:+ ", " +:+ items_go r
         end) items +:+ "]"
  | JObj fields =>
      "{" +:+
      (fix fields_go (l : list (string * json)) : string :=
         match l with
         | [] => EmptyString
         | [(k, v)] => quote k +:+ ": " +:+ dumps v
         | (k, v) :: r => quote k +:+ ": " +:+ dumps v +:+ ", " +:+ fields_go r
         end) fields +:+ "}"
  end.

End Json.

(* ===================================================================== *)
(** ** The knowledge-base tool *)
(* ===================================================================== *)

Definition kb_entry (definition key_paper : string) (year : json)
    (keywords : list string) (category : string) : json :=
  JObj [ ("definition", JStr definition);
         ("key_paper", JStr key_paper);
         ("year", year);
         ("keywords", JArr (JStr <$> keywords));
         ("category", JStr category) ].

Definition NLP_REFERENCE_KB : gmap string json :=
  <[ "transformer" :=
       kb_entry "A neural architecture built around self-attention for sequence modeling."
                "Attention Is All You Need" (JInt 2017)
                ["self-attention"; "encoder-decoder"; "parallelization"]
                "sequence modeling architecture" ]>
  (<[ "self-attention" :=
       kb_entry "An attention mechanism where each token attends to all tokens in the same sequence."
                "Attention Is All You Need" (JInt 2017)
                ["query"; "key"; "value"; "attention weights"]
                "attention mechanism" ]>
  (<[ "bert" :=
       kb_entry "A bidirectional Transformer encoder model pretrained with masked language modeling."
                "BERT: Pre-training of Deep Bidirectional Transformers for Language Understanding"
                (JInt 2018)
                ["masked language modeling"; "fine-tuning"; "pretraining"]
                "encoder-only transformer" ]>
  (<[ "tokenization" :=
       kb_entry "The process of splitting text into units (tokens) used by NLP models."
                "N/A" JNull
                ["subword"; "BPE"; "WordPiece"]
                "preprocessing" ]> ∅))).

Definition CONCEPT_NOT_FOUND : json := JObj [("error", JStr "concept not found.")].

Definition nlp_concept_kb_lookup (term : string) : string :=
  let key := PyStr.strip (PyStr.lower term) in
  match NLP_REFERENCE_KB !! key with
  | Some entry => Json.dumps entry
  | None => Json.dumps CONCEPT_NOT_FOUND
  end.


(* ===================================================================== *)
(** ** Exceptions, traces and the execution monad *)
(* ===================================================================== *)

Inductive exn : Type :=
| OracleError (what : string)     (* the language model call raised *)
| ToolError (what : string)       (* the body of a tool raised *)
| ValidationError (tool : string) (* the tool's argument schema rejected the call *)
| IndexError                      (* [messages[-1]] on an empty list *)
| AttributeError                  (* [.tool_calls] on a message that has none *)
| GraphRecursionError.            (* the graph's recursion limit was reached *)

Inductive result (A : Type) : Type :=
| Ok (a : A)
| Err (e : exn).
Arguments Ok {A} a.
Arguments Err {A} e.

Inductive node : Type := N_out_of_domain | N_llm | N_tools.

Global Instance node_eq_dec : EqDecision node.
Proof. solve_decision. Defined.

Inductive event : Type :=
| EvNode (n : node)                                   (* a node starts running *)
| EvInvoke (name : string) (args : list (string * json)). (* [tool_fn.invoke(tool_args)] *)

(** A computation yields the events it went through and either a value or the
    exception that stopped it. *)
Definition run (A : Type) : Type := list event * result A.

Module RunMonad.

Definition ret {A} (a : A) : run A := ([], Ok a).

Definition raise {A} (e : exn) : run A := ([], Err e).

Definition emit (ev : event) : run unit := ([ev], Ok tt).

Definition lift {A} (r : result A) : run A := ([], r).

Definition bind {A B} (m : run A) (k : A -> run B) : run B :=
  match m with
  | (t, Ok a) => let '(t', r) := k a in (t ++ t', r)
  | (t, Err e) => (t, Err e)
  end.

Notation "'do' x <- m ; k" := (bind m (fun x => k))
  (at level 10, x pattern, m at level 100, k at level 200).
Notation "'do_' m ; k" := (bind m (fun _ => k))
  (at level 10, m at level 100, k at level 200).

End RunMonad.
Import RunMonad.

(* ===================================================================== *)
(** ** Messages and the agent state *)
(* ===================================================================== *)

Record tool_call : Type := ToolCall {
  tc_name : string;
  tc_args : list (string * json);
  tc_id : string
}.

Inductive message : Type :=
| HumanMessage (content : string)
| SystemMessage (content : string)
| AIMessage (content : string) (tool_calls : list tool_call)
| ToolMessage (content : string) (name : string) (tool_call_id : string).

Definition content_of (m : message) : string :=
  match m with
  | HumanMessage c | SystemMessage c | AIMessage c _ | ToolMessage c _ _ => c
  end.

Record AgentState : Type := mkState {
  messages : list message;
  steps : Z
}.

(** The partial state update a node returns. *)
Record update : Type := mkUpdate {
  u_messages : list message;
  u_steps : Z
}.

(** The reducer of the [messages] channel.  Every message a node builds is
    new (it has no id yet and is given a fresh one), so the reducer appends. *)
Definition add_messages (old new : list message) : list message := old ++ new.

(** [steps] has no reducer: the update overwrites it. *)
Definition apply_update (st : AgentState) (u : update) : AgentState :=
  {| messages := add_messages (messages st) (u_messages u); steps := u_steps u |}.

(** [xs[-1]] *)
Definition last_item {A} (xs : list A) : result A :=
  match last xs with
  | Some x => Ok x
  | None => Err IndexError
  end.

(* ===================================================================== *)
(** ** External collaborators *)
(* ===================================================================== *)

Record env : Type := mkEnv {
  (** [llm.bind_tools(TOOLS).invoke(messages)]: the content and the tool calls
      of the answer.  The log grows with every call of one run, so a function
      of the log can answer each call of a run differently. *)
  llm_with_tools_invoke : list message -> result (string * list tool_call);
  (** [llm.invoke(messages).content] *)
  llm_invoke : list message -> result string;
  (** [wikipedia_runner.run(query)] *)
  wikipedia_run : string -> result string;
  (** [json.loads(text)]; [None] when it raises *)
  json_loads : string -> option json
}.

(* ===================================================================== *)
(** ** Tools *)
(* ===================================================================== *)

(** What [@tool] makes of a function: its name and [invoke], which checks the
    arguments against the signature before running the body. *)
Record tool : Type := mkTool {
  tool_name : string;
  tool_invoke : list (string * json) -> result string
}.

(** The one parameter of both tools is a [str]. *)
Definition str_arg (tool param : string) (args : list (string * json)) : result string :=
  match dict_get param args with
  | Some (JStr s) => Ok s
  | _ => Err (ValidationError tool)
  end.

Definition result_bind {A B} (r : result A) (k : A -> result B) : result B :=
  match r with
  | Ok a => k a
  | Err e => Err e
  end.

Definition wikipedia_search (E : env) : tool :=
  {| tool_name := "wikipedia_search";
     tool_invoke := fun args =>
       result_bind (str_arg "wikipedia_search" "query" args) (wikipedia_run E) |}.

Definition nlp_concept_kb_lookup_tool : tool :=
  {| tool_name := "nlp_concept_kb_lookup";
     tool_invoke := fun args =>
       result_bind (str_arg "nlp_concept_kb_lookup" "term" args)
                   (fun term => Ok (nlp_concept_kb_lookup term)) |}.

Definition TOOLS (E : env) : list tool := [wikipedia_search E; nlp_concept_kb_lookup_tool].

(** [{t.name: t for t in TOOLS}] *)
Definition TOOLS_BY_NAME (E : env) : gmap string tool :=
  foldl (fun m t => <[ tool_name t := t ]> m) ∅ (TOOLS E).

(* ===================================================================== *)
(** ** The nodes and the routing functions *)
(* ===================================================================== *)

Definition SYSTEM_MESSAGE : message :=
  SystemMessage
    ("You are a helpful assistant." +:+ PyStr.nl +:+
     "- Use wikipedia_search for broad factual/contextual information." +:+ PyStr.nl +:+
     "- Use nlp_concept_kb_lookup for structured NLP concept metadata." +:+ PyStr.nl +:+
     "- If a tool returns an error JSON, handle it and ask a short clarification." +:+ PyStr.nl +:+
     "- Be concise.").

Definition node_llm (E : env) (st : AgentState) : run update :=
  let msgs := SYSTEM_MESSAGE :: messages st in
  do response <- lift (llm_with_tools_invoke E msgs);
  ret {| u_messages := [AIMessage (fst response) (snd response)];
         u_steps := steps st + 1 |}.

(** One turn of the loop over [last_message.tool_calls]. *)
Definition call_tool (E : env) (tc : tool_call) : run message :=
  let tool_name := tc_name tc in
  let tool_args := tc_args tc in
  let tool_id := tc_id tc in
  match TOOLS_BY_NAME E !! tool_name with
  | None =>
      ret (ToolMessage ("Unknown tool: " +:+ tool_name) tool_name tool_id)
  | Some tool_fn =>
      do_ emit (EvInvoke tool_name tool_args);
      do result <- lift (tool_invoke tool_fn tool_args);
      ret (ToolMessage result tool_name tool_id)
  end.

Fixpoint call_tools (E : env) (tcs : list tool_call) : run (list message) :=
  match tcs with
  | [] => ret []
  | tc :: rest =>
      do m <- call_tool E tc;
      do ms <- call_tools E rest;
      ret (m :: ms)
  end.

(** [last_message.tool_calls]: only an [AIMessage] has the attribute. *)
Definition tool_calls_attr (m : message) : result (list tool_call) :=
  match m with
  | AIMessage _ tcs => Ok tcs
  | _ => Err AttributeError
  end.

Definition node_tools (E : env) (st : AgentState) : run update :=
  do last_message <- lift (last_item (messages st));
  do tcs <- lift (tool_calls_attr last_message);
  do tool_messages <- call_tools E tcs;
  ret {| u_messages := tool_messages; u_steps := steps st + 1 |}.

Definition MAX_STEPS : Z := 6.

Inductive after_llm : Type := Continue | End_.

(** [getattr(last_message, "tool_calls", None)] is falsy when the attribute is
    absent or the list is empty. *)
Definition has_tool_calls (m : message) : bool :=
  match m with
  | AIMessage _ (_ :: _) => true
  | _ => false
  end.

(** [route_after_llm], with the budget it compares against as a parameter;
    the program runs it at [MAX_STEPS]. *)
Definition route_after_llm (max_steps : Z) (st : AgentState) : result after_llm :=
  if max_steps <=? steps st then Ok End_
  else
    result_bind (last_item (messages st)) (fun last_message =>
      if negb (has_tool_calls last_message) then Ok End_ else Ok Continue).

Definition ROUTER_SYSTEM_MESSAGE : message :=
  let q := PyStr.dq in
  SystemMessage
    ("You are a router for an NLP-only assistant." +:+ PyStr.nl +:+
     PyStr.nl +:+
     "Return STRICT JSON only:" +:+ PyStr.nl +:+
     "- {" +:+ q +:+ "route" +:+ q +:+ ":" +:+ q +:+ "in_domain" +:+ q +:+
     "} if the question is about NLP (tokenization, embeddings, attention, Transformers, LLMs, etc.)"
     +:+ PyStr.nl +:+
     "- {" +:+ q +:+ "route" +:+ q +:+ ":" +:+ q +:+ "out_of_domain" +:+ q +:+
     "} otherwise" +:+ PyStr.nl).

Inductive route : Type := in_domain | out_of_domain.

(** The content of the last [HumanMessage], or the empty string. *)
Definition last_user_text (msgs : list message) : string :=
  (fix scan (l : list message) : string :=
     match l with
     | [] => EmptyString
     | HumanMessage c :: _ => c
     | _ :: r => scan r
     end) (rev msgs).

(** The body of the [try]: [Some true] when it returns ["out_of_domain"],
    [Some false] when it falls through, [None] when it raises. *)
Definition parse_route (E : env) (content : string) : option bool :=
  match json_loads E (PyStr.strip content) with
  | None => None
  | Some (JObj payload) =>
      match dict_get "route" payload with
      | Some (JStr r) => Some (String.eqb r "out_of_domain")
      | _ => Some false
      end
  | Some _ => None
  end.

Definition route_domain_llm (E : env) (st : AgentState) : result route :=
  let user_text := last_user_text (messages st) in
  let router_messages := [ROUTER_SYSTEM_MESSAGE; HumanMessage user_text] in
  result_bind (llm_invoke E router_messages) (fun content =>
    match parse_route E content with
    | Some true => Ok out_of_domain
    | Some false => Ok in_domain
    | None => Ok in_domain
    end).

Definition OUT_OF_DOMAIN_TEXT : string :=
  "The question is out of scope. I can help with NLP concepts (Transformer, attention, tokenization, BERT, etc.). "
  +:+ "Please rephrase your question within that scope.".

Definition node_out_of_domain (st : AgentState) : run update :=
  let msg := SystemMessage OUT_OF_DOMAIN_TEXT in
  ret {| u_messages := [msg]; u_steps := steps st + 1 |}.

(* ===================================================================== *)
(** ** The compiled graph *)
(* ===================================================================== *)

(** Where an edge leads. *)
Inductive target : Type := To (n : node) | END.

(** One node and the edge that leaves it. *)
Definition graph_step (E : env) (max_steps : Z) (n : node) (st : AgentState)
    : run (target * AgentState) :=
  do_ emit (EvNode n);
  match n with
  | N_out_of_domain =>
      do u <- node_out_of_domain st;
      ret (END, apply_update st u)
  | N_llm =>
      do u <- node_llm E st;
      let st' := apply_update st u in
      do r <- lift (route_after_llm max_steps st');
      ret (match r with Continue => To N_tools | End_ => END end, st')
  | N_tools =>
      do u <- node_tools E st;
      ret (To N_llm, apply_update st u)
  end.

(** The graph runs nodes until an edge reaches [END].  It looks at the
    recursion limit before it looks at where it stands, so it gives up with
    [GraphRecursionError] unless the limit exceeds the number of nodes the
    run takes: a run of [k] nodes needs a limit of [k + 1]. *)
Fixpoint run_from (E : env) (max_steps : Z) (limit : nat) (t : target)
    (st : AgentState) {struct limit} : run AgentState :=
  match limit with
  | O => raise GraphRecursionError
  | S limit' =>
      match t with
      | END => ret st
      | To n =>
          do next <- graph_step E max_steps n st;
          run_from E max_steps limit' (fst next) (snd next)
      end
  end.

(** [agent.invoke(state)]: the conditional edge out of [START], then the run. *)
Definition invoke (E : env) (max_steps : Z) (limit : nat) (st : AgentState)
    : run AgentState :=
  do r <- lift (route_domain_llm E st);
  run_from E max_steps limit
    (To (match r with in_domain => N_llm | out_of_domain => N_out_of_domain end)) st.

(** The recursion limit a compiled graph has when none is configured. *)
Definition DEFAULT_RECURSION_LIMIT : nat := 25.

(** [agent.invoke({"messages": [HumanMessage(content=user_query)], "steps": 0})] *)
Definition initial_state (user_query : string) : AgentState :=
  {| messages := [HumanMessage user_query]; steps := 0 |}.

Definition agent_invoke (E : env) (user_query : string) : run AgentState :=
  invoke E MAX_STEPS DEFAULT_RECURSION_LIMIT (initial_state user_query).

(* ===================================================================== *)
(** ** Concrete collaborators for the examples *)
(* ===================================================================== *)

Module Demo.

Definition in_domain_payload : string :=
  let q := PyStr.dq in "{" +:+ q +:+ "route" +:+ q +:+ ":" +:+ q +:+ "in_domain" +:+ q +:+ "}".

Definition out_of_domain_payload : string :=
  let q := PyStr.dq in "{" +:+ q +:+ "route" +:+ q +:+ ":" +:+ q +:+ "out_of_domain" +:+ q +:+ "}".

(** [json.loads] on the two payloads the router prompt asks for; every other
    text the examples feed it is not JSON, and is rejected. *)
Definition loads (text : string) : option json :=
  if String.eqb text in_domain_payload then Some (JObj [("route", JStr "in_domain")])
  else if String.eqb text out_of_domain_payload then Some (JObj [("route", JStr "out_of_domain")])
  else None.

Definition lookup_call (id term : string) : tool_call :=
  {| tc_name := "nlp_concept_kb_lookup"; tc_args := [("term", JStr term)]; tc_id := id |}.

Definition ghost_call (id : string) : tool_call :=
  {| tc_name := "ghost"; tc_args := []; tc_id := id |}.

(** A model that asks for the same two tools at every turn and never stops;
    its router answers with [router_text]. *)
Definition greedy (router_text : string) : env :=
  {| llm_with_tools_invoke := fun _ =>
       Ok ("Let me check.", [lookup_call "call_1" " BERT "; ghost_call "call_2"]);
     llm_invoke := fun _ => Ok router_text;
     wikipedia_run := fun q => Ok ("Summary: " +:+ q);
     json_loads := loads |}.

(** The same, with a Wikipedia runner that is down. *)
Definition offline : env :=
  {| llm_with_tools_invoke := fun _ =>
       Ok ("Searching.",
           [ghost_call "call_1";
            {| tc_name := "wikipedia_search"; tc_args := [("query", JStr "BPE")];
               tc_id := "call_2" |};
            lookup_call "call_3" "bert"]);
     llm_invoke := fun _ => Ok in_domain_payload;
     wikipedia_run := fun _ => Err (ToolError "wikipedia is unreachable");
     json_loads := loads |}.

End Demo.

(* ===================================================================== *)
(** ** Vocabulary of the statements *)
(* ===================================================================== *)

(** The text [json.dumps({"error": "concept not found."})] prints. *)
Definition NOT_FOUND_JSON : string :=
  let q := PyStr.dq in
  "{" +:+ q +:+ "error" +:+ q +:+ ": " +:+ q +:+ "concept not found." +:+ q +:+ "}".

(** The [type] field of a message: its role. *)
Definition message_type (m : message) : string :=
  match m with
  | HumanMessage _ => "human"
  | SystemMessage _ => "system"
  | AIMessage _ _ => "ai"
  | ToolMessage _ _ _ => "tool"
  end.

(** The [tool_call_id] of a [ToolMessage]. *)
Definition correlation_id (m : message) : option string :=
  match m with
  | ToolMessage _ _ id => Some id
  | _ => None
  end.

(** The shape of the observation that answers a request. *)
Definition answers (tc : tool_call) (m : message) : Prop :=
  exists content, m = ToolMessage content (tc_name tc) (tc_id tc).

(** The request resolves to no tool, or to one whose [invoke] returns. *)
Definition tool_ok (E : env) (tc : tool_call) : bool :=
  match TOOLS_BY_NAME E !! tc_name tc with
  | None => true
  | Some tool_fn =>
      match tool_invoke tool_fn (tc_args tc) with
      | Ok _ => true
      | Err _ => false
      end
  end.

(** The nodes a trace went through, in order. *)
Fixpoint nodes_of (t : list event) : list node :=
  match t with
  | [] => []
  | EvNode n :: r => n :: nodes_of r
  | EvInvoke _ _ :: r => nodes_of r
  end.

(** The tool invocations of a trace, by name, in order. *)
Fixpoint invoked (t : list event) : list string :=
  match t with
  | [] => []
  | EvNode _ :: r => invoked r
  | EvInvoke name _ :: r => name :: invoked r
  end.

(** How many times a node ran. *)
Definition visits (n : node) (t : list event) : nat :=
  length (filter (fun m => m = n) (nodes_of t)).

(** [steps_to k t c c']: the graph goes from [c] to [c'] by running [k]
    nodes, none of which raises, and [t] is what they did. *)
Inductive steps_to (E : env) (max_steps : Z)
    : nat -> list event -> target * AgentState -> target * AgentState -> Prop :=
| steps_to_refl c : steps_to E max_steps 0 [] c c
| steps_to_next k n st t c' t' c'' :
    graph_step E max_steps n st = (t, Ok c') ->
    steps_to E max_steps k t' c' c'' ->
    steps_to E max_steps (S k) (t ++ t') (To n, st) c''.

(** A bound on the nodes a run from [tg] still has to run; a recursion limit
    above it is never what stops the run. *)
Definition fuel_needed (max_steps : Z) (tg : target) (st : AgentState) : nat :=
  match tg with
  | END => 0
  | To N_out_of_domain => 1
  | To N_llm => Z.to_nat (max_steps - steps st) + 1
  | To N_tools => Z.to_nat (max_steps - steps st - 1) + 2
  end.

(** The bound on the final step count: the budget if it is odd, one more if
    it is even. *)
Definition step_bound (max_steps : Z) : Z :=
  if Z.odd max_steps then max_steps else max_steps + 1.

(* ===================================================================== *)
(** ** The run block of the agent script *)
(* ===================================================================== *)

(** What the script prints for one query:
    [final_state["messages"][-1].content]. *)
Definition agent_answer (E : env) (user_query : string) : run string :=
  do final_state <- agent_invoke E user_query;
  do last_message <- lift (last_item (messages final_state));
  ret (content_of last_message).

(** The request names a tool of the registry. *)
Definition resolves (E : env) (tc : tool_call) : bool :=
  match TOOLS_BY_NAME E !! tc_name tc with
  | Some _ => true
  | None => false
  end.

Definition is_human (m : message) : bool :=
  match m with
  | HumanMessage _ => true
  | _ => false
  end.

(** The nodes of a run through the loop that went [rounds] times through the
    tools node. *)
Fixpoint loop_nodes (rounds : nat) : list node :=
  match rounds with
  | O => [N_llm]
  | S r => N_llm :: N_tools :: loop_nodes r
  end.

(** More collaborators for the examples. *)
Module Scenario.

(** A model that answers at once, behind a router that accepts. *)
Definition direct : env :=
  {| llm_with_tools_invoke := fun _ => Ok ("BERT is an encoder-only Transformer.", []);
     llm_invoke := fun _ => Ok Demo.in_domain_payload;
     wikipedia_run := fun q => Ok ("Summary: " +:+ q);
     json_loads := Demo.loads |}.

(** A model whose tool-calling endpoint is down, behind a router that
    accepts. *)
Definition broken : env :=
  {| llm_with_tools_invoke := fun _ => Err (OracleError "connection refused");
     llm_invoke := fun _ => Ok Demo.in_domain_payload;
     wikipedia_run := fun q => Ok ("Summary: " +:+ q);
     json_loads := Demo.loads |}.

(** A router that cannot be reached, in front of a model that works. *)
Definition router_down : env :=
  {| llm_with_tools_invoke := fun _ => Ok ("BERT is an encoder-only Transformer.", []);
     llm_invoke := fun _ => Err (OracleError "router unreachable");
     wikipedia_run := fun q => Ok ("Summary: " +:+ q);
     json_loads := Demo.loads |}.

End Scenario.

(* ===================================================================== *)
(** ** The manual tool-calling loop of [agents_intro/1_langchain_tool_calling.py] *)
(* ===================================================================== *)

Module ToolCalling.

(** A row of [data_df].  The amount is a float that is only ever printed, so
    the row keeps its printed form. *)
Record payment : Type := mkPayment {
  transaction_id : string;
  customer_id : string;
  payment_amount : string;
  payment_date : string;
  payment_status : string
}.

Definition data_df : list payment :=
  [ mkPayment "T1001" "C001" "125.5" "2021-10-05" "Paid";
    mkPayment "T1002" "C002" "89.99" "2021-10-06" "Unpaid";
    mkPayment "T1003" "C003" "120.0" "2021-10-07" "Paid";
    mkPayment "T1004" "C002" "54.3" "2021-10-05" "Paid";
    mkPayment "T1005" "C001" "210.2" "2021-10-08" "Pending" ].

(** [tid in df.transaction_id.values] *)
Definition known_id (df : list payment) (tid : string) : bool :=
  existsb (fun row => String.eqb (transaction_id row) tid) df.

(** [df[df.transaction_id == tid]] *)
Definition rows_with (df : list payment) (tid : string) : list payment :=
  List.filter (fun row => String.eqb (transaction_id row) tid) df.

(** [series.item()]: the element of a series of length one; it raises on any
    other length. *)
Definition item {A} (values : list A) : result A :=
  match values with
  | [v] => Ok v
  | _ => Err (ToolError "can only convert an array of size 1 to a Python scalar")
  end.

Definition NOT_FOUND : json := JObj [("error", JStr "transaction id not found.")].

(** The two tools, over a table; the script runs them on [data_df]. *)
Definition retrieve_payment_status_on (df : list payment) (tid : string)
    : result string :=
  if known_id df tid then
    result_bind (item (payment_status <$> rows_with df tid))
      (fun status => Ok (Json.dumps (JObj [("status", JStr status)])))
  else Ok (Json.dumps NOT_FOUND).

Definition retrieve_amount_on (df : list payment) (tid : string) : result string :=
  if known_id df tid then
    result_bind (item (payment_amount <$> rows_with df tid))
      (fun amount => Ok (Json.dumps (JObj [("amount", JFloat amount)])))
  else Ok (Json.dumps NOT_FOUND).

Definition retrieve_payment_status : string -> result string :=
  retrieve_payment_status_on data_df.

Definition retrieve_amount : string -> result string :=
  retrieve_amount_on data_df.

Definition retrieve_payment_status_tool : tool :=
  {| tool_name := "retrieve_payment_status";
     tool_invoke := fun args =>
       result_bind (str_arg "retrieve_payment_status" "transaction_id" args)
                   retrieve_payment_status |}.

Definition retrieve_amount_tool : tool :=
  {| tool_name := "retrieve_amount";
     tool_invoke := fun args =>
       result_bind (str_arg "retrieve_amount" "transaction_id" args)
                   retrieve_amount |}.

Definition tool_names_to_functions : gmap string tool :=
  <[ tool_name retrieve_amount_tool := retrieve_amount_tool ]>
  (<[ tool_name retrieve_payment_status_tool := retrieve_payment_status_tool ]> ∅).

Definition system_message : message :=
  SystemMessage
    ("You are a customer support assistant." +:+ PyStr.nl +:+
     "When a user provides a transaction ID:" +:+ PyStr.nl +:+
     "- Always call the appropriate tool(s) to retrieve the requested information." +:+ PyStr.nl +:+
     "- If a tool returns an error, inform the user clearly and politely about this error." +:+ PyStr.nl +:+
     "- When a tool returns valid data, present the result clearly in natural language without exposing raw JSON." +:+ PyStr.nl +:+
     "- Do not fabricate data." +:+ PyStr.nl).

(** [tool_fn.invoke(tool_call)]: given a whole tool call, a tool answers with
    a [ToolMessage] that carries the id of the call. *)
Definition invoke_with_call (tool_fn : tool) (tc : tool_call) : run message :=
  do_ emit (EvInvoke (tool_name tool_fn) (tc_args tc));
  do content <- lift (tool_invoke tool_fn (tc_args tc));
  ret (ToolMessage content (tool_name tool_fn) (tc_id tc)).

(** The [for tool_call in ai_message.tool_calls] loop, which appends to
    [messages]. *)
Fixpoint run_tool_calls (tcs : list tool_call) (messages : list message)
    : run (list message) :=
  match tcs with
  | [] => ret messages
  | tool_call :: rest =>
      match tool_names_to_functions !! tc_name tool_call with
      | None => run_tool_calls rest messages
      | Some tool_fn =>
          do tool_message <- invoke_with_call tool_fn tool_call;
          run_tool_calls rest (messages ++ [tool_message])
      end
  end.

(** One turn of the [for query in test_user_queries] loop: the messages it
    built and [final_message]. *)
Definition answer (llm_with_tools : list message -> result (string * list tool_call))
    (query : string) : run (list message * message) :=
  let messages := [system_message; HumanMessage query] in
  do ai <- lift (llm_with_tools messages);
  let ai_message := AIMessage (fst ai) (snd ai) in
  let messages := messages ++ [ai_message] in
  match snd ai with
  | _ :: _ =>
      do messages <- run_tool_calls (snd ai) messages;
      do final <- lift (llm_with_tools messages);
      ret (messages, AIMessage (fst final) (snd final))
  | [] => ret (messages, ai_message)
  end.

(** The call names neither tool, or one whose [invoke] returns. *)
Definition call_succeeds (tc : tool_call) : bool :=
  match tool_names_to_functions !! tc_name tc with
  | None => true
  | Some tool_fn =>
      match tool_invoke tool_fn (tc_args tc) with
      | Ok _ => true
      | Err _ => false
      end
  end.

(** The calls of a batch that name one of the two tools. *)
Definition served (tcs : list tool_call) : list tool_call :=
  List.filter (fun tc =>
    match tool_names_to_functions !! tc_name tc with
    | Some _ => true
    | None => false
    end) tcs.

(** A model for the examples: it asks for the status, the amount and a tool
    that does not exist, then answers. *)
Definition scripted (msgs : list message) : result (string * list tool_call) :=
  match last msgs with
  | Some (HumanMessage _) =>
      Ok (EmptyString,
          [ {| tc_name := "retrieve_payment_status";
               tc_args := [("transaction_id", JStr "T1002")]; tc_id := "call_a" |};
            {| tc_name := "refund"; tc_args := []; tc_id := "call_b" |};
            {| tc_name := "retrieve_amount";
               tc_args := [("transaction_id", JStr "T1002")]; tc_id := "call_c" |} ])
  | _ => Ok ("Order T1002 is unpaid; the amount is 89.99.", [])
  end.

End ToolCalling.

(* ===================================================================== *)
(** ** Python strings over all of Unicode *)
(* ===================================================================== *)

(** A [str] is a sequence of Unicode code points.  The agent model keeps to
    the code points below 256; the knowledge-base lookup, whose argument is
    any [str], is given here on all of them, with [str.lower] and
    [str.strip] as CPython computes them. *)
Module Unicode.

(** The code points on which [str.isspace] holds. *)
Definition whitespace : list N :=
  [
    9; 10; 11; 12; 13; 28; 29; 30; 31; 32; 133; 160;
    5760; 8192; 8193; 8194; 8195; 8196; 8197; 8198; 8199; 8200; 8201; 8202;
    8232; 8233; 8239; 8287; 12288 ]%N.

(** The code points that [str.lower] changes into one other code point, each
    with that code point (Unicode 14.0.0, 1432 entries). *)
Definition lower_table : list (N * N) :=
  [
    (65, 97); (66, 98); (67, 99); (68, 100); (69, 101); (70, 102);
    (71, 103); (72, 104); (73, 105); (74, 106); (75, 107); (76, 108);
    (77, 109); (78, 110); (79, 111); (80, 112); (81, 113); (82, 114);
    (83, 115); (84, 116); (85, 117); (86, 118); (87, 119); (88, 120);
    (89, 121); (90, 122); (192, 224); (193, 225); (194, 226); (195, 227);
    (196, 228); (197, 229); (198, 230); (199, 231); (200, 232); (201, 233);
    (202, 234); (203, 235); (204, 236); (205, 237); (206, 238); (207, 239);
    (208, 240); (209, 241); (210, 242); (211, 243); (212, 244); (213, 245);
    (214, 246); (216, 248); (217, 249); (218, 250); (219, 251); (220, 252);
    (221, 253); (222, 254); (256, 257); (258, 259); (260, 261); (262, 263);
    (264, 265); (266, 267); (268, 269); (270, 271); (272, 273); (274, 275);
    (276, 277); (278, 279); (280, 281); (282, 283); (284, 285); (286, 287);
    (288, 289); (290, 291); (292, 293); (294, 295); (296, 297); (298, 299);
    (300, 301); (302, 303); (306, 307); (308, 309); (310, 311); (313, 314);
    (315, 316); (317, 318); (319, 320); (321, 322); (323, 324); (325, 326);
    (327, 328); (330, 331); (332, 333); (334, 335); (336, 337); (338, 339);
    (340, 341); (342, 343); (344, 345); (346, 347); (348, 349); (350, 351);
    (352, 353); (354, 355); (356, 357); (358, 359); (360, 361); (362, 363);
    (364, 365); (366, 367); (368, 369); (370, 371); (372, 373); (374, 375);
    (376, 255); (377, 378); (379, 380); (381, 382); (385, 595); (386, 387);
    (388, 389); (390, 596); (391, 392); (393, 598); (394, 599); (395, 396);
    (398, 477); (399, 601); (400, 603); (401, 402); (403, 608); (404, 611);
    (406, 617); (407, 616); (408, 409); (412, 623); (413, 626); (415, 629);
    (416, 417); (418, 419); (420, 421); (422, 640); (423, 424); (425, 643);
    (428, 429); (430, 648); (431, 432); (433, 650); (434, 651); (435, 436);
    (437, 438); (439, 658); (440, 441); (444, 445); (452, 454); (453, 454);
    (455, 457); (456, 457); (458, 460); (459, 460); (461, 462); (463, 464);
    (465, 466); (467, 468); (469, 470); (471, 472); (473, 474); (475, 476);
    (478, 479); (480, 481); (482, 483); (484, 485); (486, 487); (488, 489);
    (490, 491); (492, 493); (494, 495); (497, 499); (498, 499); (500, 501);
    (502, 405); (503, 447); (504, 505); (506, 507); (508, 509); (510, 511);
    (512, 513); (514, 515); (516, 517); (518, 519); (520, 521); (522, 523);
    (524, 525); (526, 527); (528, 529); (530, 531); (532, 533); (534, 535);
    (536, 537); (538, 539); (540, 541); (542, 543); (544, 414); (546, 547);
    (548, 549); (550, 551); (552, 553); (554, 555); (556, 557); (558, 559);
    (560, 561); (562, 563); (570, 11365); (571, 572); (573, 410); (574, 11366);
    (577, 578); (579, 384); (580, 649); (581, 652); (582, 583); (584, 585);
    (586, 587); (588, 589); (590, 591); (880, 881); (882, 883); (886, 887);
    (895, 1011); (902, 940); (904, 941); (905, 942); (906, 943); (908, 972);
    (910, 973); (911, 974); (913, 945); (914, 946); (915, 947); (916, 948);
    (917, 949); (918, 950); (919, 951); (920, 952); (921, 953); (922, 954);
    (923, 955); (924, 956); (925, 957); (926, 958); (927, 959); (928, 960);
    (929, 961); (931, 963); (932, 964); (933, 965); (934, 966); (935, 967);
    (936, 968); (937, 969); (938, 970); (939, 971); (975, 983); (984, 985);
    (986, 987); (988, 989); (990, 991); (992, 993); (994, 995); (996, 997);
    (998, 999); (1000, 1001); (1002, 1003); (1004, 1005); (1006, 1007); (1012, 952);
    (1015, 1016); (1017, 1010); (1018, 1019); (1021, 891); (1022, 892); (1023, 893);
    (1024, 1104); (1025, 1105); (1026, 1106); (1027, 1107); (1028, 1108); (1029, 1109);
    (1030, 1110); (1031, 1111); (1032, 1112); (1033, 1113); (1034, 1114); (1035, 1115);
    (1036, 1116); (1037, 1117); (1038, 1118); (1039, 1119); (1040, 1072); (1041, 1073);
    (1042, 1074); (1043, 1075); (1044, 1076); (1045, 1077); (1046, 1078); (1047, 1079);
    (1048, 1080); (1049, 1081); (1050, 1082); (1051, 1083); (1052, 1084); (1053, 1085);
    (1054, 1086); (1055, 1087); (1056, 1088); (1057, 1089); (1058, 1090); (1059, 1091);
    (1060, 1092); (1061, 1093); (1062, 1094); (1063, 1095); (1064, 1096); (1065, 1097);
    (1066, 1098); (1067, 1099); (1068, 1100); (1069, 1101); (1070, 1102); (1071, 1103);
    (1120, 1121); (1122, 1123); (1124, 1125); (1126, 1127); (1128, 1129); (1130, 1131);
    (1132, 1133); (1134, 1135); (1136, 1137); (1138, 1139); (1140, 1141); (1142, 1143);
    (1144, 1145); (1146, 1147); (1148, 1149); (1150, 1151); (1152, 1153); (1162, 1163);
    (1164, 1165); (1166, 1167); (1168, 1169); (1170, 1171); (1172, 1173); (1174, 1175);
    (1176, 1177); (1178, 1179); (1180, 1181); (1182, 1183); (1184, 1185); (1186, 1187);
    (1188, 1189); (1190, 1191); (1192, 1193); (1194, 1195); (1196, 1197); (1198, 1199);
    (1200, 1201); (1202, 1203); (1204, 1205); (1206, 1207); (1208, 1209); (1210, 1211);
    (1212, 1213); (1214, 1215); (1216, 1231); (1217, 1218); (1219, 1220); (1221, 1222);
    (1223, 1224); (1225, 1226); (1227, 1228); (1229, 1230); (1232, 1233); (1234, 1235);
    (1236, 1237); (1238, 1239); (1240, 1241); (1242, 1243); (1244, 1245); (1246, 1247);
    (1248, 1249); (1250, 1251); (1252, 1253); (1254, 1255); (1256, 1257); (1258, 1259);
    (1260, 1261); (1262, 1263); (1264, 1265); (1266, 1267); (1268, 1269); (1270, 1271);
    (1272, 1273); (1274, 1275); (1276, 1277); (1278, 1279); (1280, 1281); (1282, 1283);
    (1284, 1285); (1286, 1287); (1288, 1289); (1290, 1291); (1292, 1293); (1294, 1295);
    (1296, 1297); (1298, 1299); (1300, 1301); (1302, 1303); (1304, 1305); (1306, 1307);
    (1308, 1309); (1310, 1311); (1312, 1313); (1314, 1315); (1316, 1317); (1318, 1319);
    (1320, 1321); (1322, 1323); (1324, 1325); (1326, 1327); (1329, 1377); (1330, 1378);
    (1331, 1379); (1332, 1380); (1333, 1381); (1334, 1382); (1335, 1383); (1336, 1384);
    (1337, 1385); (1338, 1386); (1339, 1387); (1340, 1388); (1341, 1389); (1342, 1390);
    (1343, 1391); (1344, 1392); (1345, 1393); (1346, 1394); (1347, 1395); (1348, 1396);
    (1349, 1397); (1350, 1398); (1351, 1399); (1352, 1400); (1353, 1401); (1354, 1402);
    (1355, 1403); (1356, 1404); (1357, 1405); (1358, 1406); (1359, 1407); (1360, 1408);
    (1361, 1409); (1362, 1410); (1363, 1411); (1364, 1412); (1365, 1413); (1366, 1414);
    (4256, 11520); (4257, 11521); (4258, 11522); (4259, 11523); (4260, 11524); (4261, 11525);
    (4262, 11526); (4263, 11527); (4264, 11528); (4265, 11529); (4266, 11530); (4267, 11531);
    (4268, 11532); (4269, 11533); (4270, 11534); (4271, 11535); (4272, 11536); (4273, 11537);
    (4274, 11538); (4275, 11539); (4276, 11540); (4277, 11541); (4278, 11542); (4279, 11543);
    (4280, 11544); (4281, 11545); (4282, 11546); (4283, 11547); (4284, 11548); (4285, 11549);
    (4286, 11550); (4287, 11551); (4288, 11552); (4289, 11553); (4290, 11554); (4291, 11555);
    (4292, 11556); (4293, 11557); (4295, 11559); (4301, 11565); (5024, 43888); (5025, 43889);
    (5026, 43890); (5027, 43891); (5028, 43892); (5029, 43893); (5030, 43894); (5031, 43895);
    (5032, 43896); (5033, 43897); (5034, 43898); (5035, 43899); (5036, 43900); (5037, 43901);
    (5038, 43902); (5039, 43903); (5040, 43904); (5041, 43905); (5042, 43906); (5043, 43907);
    (5044, 43908); (5045, 43909); (5046, 43910); (5047, 43911); (5048, 43912); (5049, 43913);
    (5050, 43914); (5051, 43915); (5052, 43916); (5053, 43917); (5054, 43918); (5055, 43919);
    (5056, 43920); (5057, 43921); (5058, 43922); (5059, 43923); (5060, 43924); (5061, 43925);
    (5062, 43926); (5063, 43927); (5064, 43928); (5065, 43929); (5066, 43930); (5067, 43931);
    (5068, 43932); (5069, 43933); (5070, 43934); (5071, 43935); (5072, 43936); (5073, 43937);
    (5074, 43938); (5075, 43939); (5076, 43940); (5077, 43941); (5078, 43942); (5079, 43943);
    (5080, 43944); (5081, 43945); (5082, 43946); (5083, 43947); (5084, 43948); (5085, 43949);
    (5086, 43950); (5087, 43951); (5088, 43952); (5089, 43953); (5090, 43954); (5091, 43955);
    (5092, 43956); (5093, 43957); (5094, 43958); (5095, 43959); (5096, 43960); (5097, 43961);
    (5098, 43962); (5099, 43963); (5100, 43964); (5101, 43965); (5102, 43966); (5103, 43967);
    (5104, 5112); (5105, 5113); (5106, 5114); (5107, 5115); (5108, 5116); (5109, 5117);
    (7312, 4304); (7313, 4305); (7314, 4306); (7315, 4307); (7316, 4308); (7317, 4309);
    (7318, 4310); (7319, 4311); (7320, 4312); (7321, 4313); (7322, 4314); (7323, 4315);
    (7324, 4316); (7325, 4317); (7326, 4318); (7327, 4319); (7328, 4320); (7329, 4321);
    (7330, 4322); (7331, 4323); (7332, 4324); (7333, 4325); (7334, 4326); (7335, 4327);
    (7336, 4328); (7337, 4329); (7338, 4330); (7339, 4331); (7340, 4332); (7341, 4333);
    (7342, 4334); (7343, 4335); (7344, 4336); (7345, 4337); (7346, 4338); (7347, 4339);
    (7348, 4340); (7349, 4341); (7350, 4342); (7351, 4343); (7352, 4344); (7353, 4345);
    (7354, 4346); (7357, 4349); (7358, 4350); (7359, 4351); (7680, 7681); (7682, 7683);
    (7684, 7685); (7686, 7687); (7688, 7689); (7690, 7691); (7692, 7693); (7694, 7695);
    (7696, 7697); (7698, 7699); (7700, 7701); (7702, 7703); (7704, 7705); (7706, 7707);
    (7708, 7709); (7710, 7711); (7712, 7713); (7714, 7715); (7716, 7717); (7718, 7719);
    (7720, 7721); (7722, 7723); (7724, 7725); (7726, 7727); (7728, 7729); (7730, 7731);
    (7732, 7733); (7734, 7735); (7736, 7737); (7738, 7739); (7740, 7741); (7742, 7743);
    (7744, 7745); (7746, 7747); (7748, 7749); (7750, 7751); (7752, 7753); (7754, 7755);
    (7756, 7757); (7758, 7759); (7760, 7761); (7762, 7763); (7764, 7765); (7766, 7767);
    (7768, 7769); (7770, 7771); (7772, 7773); (7774, 7775); (7776, 7777); (7778, 7779);
    (7780, 7781); (7782, 7783); (7784, 7785); (7786, 7787); (7788, 7789); (7790, 7791);
    (7792, 7793); (7794, 7795); (7796, 7797); (7798, 7799); (7800, 7801); (7802, 7803);
    (7804, 7805); (7806, 7807); (7808, 7809); (7810, 7811); (7812, 7813); (7814, 7815);
    (7816, 7817); (7818, 7819); (7820, 7821); (7822, 7823); (7824, 7825); (7826, 7827);
    (7828, 7829); (7838, 223); (7840, 7841); (7842, 7843); (7844, 7845); (7846, 7847);
    (7848, 7849); (7850, 7851); (7852, 7853); (7854, 7855); (7856, 7857); (7858, 7859);
    (7860, 7861); (7862, 7863); (7864, 7865); (7866, 7867); (7868, 7869); (7870, 7871);
    (7872, 7873); (7874, 7875); (7876, 7877); (7878, 7879); (7880, 7881); (7882, 7883);
    (7884, 7885); (7886, 7887); (7888, 7889); (7890, 7891); (7892, 7893); (7894, 7895);
    (7896, 7897); (7898, 7899); (7900, 7901); (7902, 7903); (7904, 7905); (7906, 7907);
    (7908, 7909); (7910, 7911); (7912, 7913); (7914, 7915); (7916, 7917); (7918, 7919);
    (7920, 7921); (7922, 7923); (7924, 7925); (7926, 7927); (7928, 7929); (7930, 7931);
    (7932, 7933); (7934, 7935); (7944, 7936); (7945, 7937); (7946, 7938); (7947, 7939);
    (7948, 7940); (7949, 7941); (7950, 7942); (7951, 7943); (7960, 7952); (7961, 7953);
    (7962, 7954); (7963, 7955); (7964, 7956); (7965, 7957); (7976, 7968); (7977, 7969);
    (7978, 7970); (7979, 7971); (7980, 7972); (7981, 7973); (7982, 7974); (7983, 7975);
    (7992, 7984); (7993, 7985); (7994, 7986); (7995, 7987); (7996, 7988); (7997, 7989);
    (7998, 7990); (7999, 7991); (8008, 8000); (8009, 8001); (8010, 8002); (8011, 8003);
    (8012, 8004); (8013, 8005); (8025, 8017); (8027, 8019); (8029, 8021); (8031, 8023);
    (8040, 8032); (8041, 8033); (8042, 8034); (8043, 8035); (8044, 8036); (8045, 8037);
    (8046, 8038); (8047, 8039); (8072, 8064); (8073, 8065); (8074, 8066); (8075, 8067);
    (8076, 8068); (8077, 8069); (8078, 8070); (8079, 8071); (8088, 8080); (8089, 8081);
    (8090, 8082); (8091, 8083); (8092, 8084); (8093, 8085); (8094, 8086); (8095, 8087);
    (8104, 8096); (8105, 8097); (8106, 8098); (8107, 8099); (8108, 8100); (8109, 8101);
    (8110, 8102); (8111, 8103); (8120, 8112); (8121, 8113); (8122, 8048); (8123, 8049);
    (8124, 8115); (8136, 8050); (8137, 8051); (8138, 8052); (8139, 8053); (8140, 8131);
    (8152, 8144); (8153, 8145); (8154, 8054); (8155, 8055); (8168, 8160); (8169, 8161);
    (8170, 8058); (8171, 8059); (8172, 8165); (8184, 8056); (8185, 8057); (8186, 8060);
    (8187, 8061); (8188, 8179); (8486, 969); (8490, 107); (8491, 229); (8498, 8526);
    (8544, 8560); (8545, 8561); (8546, 8562); (8547, 8563); (8548, 8564); (8549, 8565);
    (8550, 8566); (8551, 8567); (8552, 8568); (8553, 8569); (8554, 8570); (8555, 8571);
    (8556, 8572); (8557, 8573); (8558, 8574); (8559, 8575); (8579, 8580); (9398, 9424);
    (9399, 9425); (9400, 9426); (9401, 9427); (9402, 9428); (9403, 9429); (9404, 9430);
    (9405, 9431); (9406, 9432); (9407, 9433); (9408, 9434); (9409, 9435); (9410, 9436);
    (9411, 9437); (9412, 9438); (9413, 9439); (9414, 9440); (9415, 9441); (9416, 9442);
    (9417, 9443); (9418, 9444); (9419, 9445); (9420, 9446); (9421, 9447); (9422, 9448);
    (9423, 9449); (11264, 11312); (11265, 11313); (11266, 11314); (11267, 11315); (11268, 11316);
    (11269, 11317); (11270, 11318); (11271, 11319); (11272, 11320); (11273, 11321); (11274, 11322);
    (11275, 11323); (11276, 11324); (11277, 11325); (11278, 11326); (11279, 11327); (11280, 11328);
    (11281, 11329); (11282, 11330); (11283, 11331); (11284, 11332); (11285, 11333); (11286, 11334);
    (11287, 11335); (11288, 11336); (11289, 11337); (11290, 11338); (11291, 11339); (11292, 11340);
    (11293, 11341); (11294, 11342); (11295, 11343); (11296, 11344); (11297, 11345); (11298, 11346);
    (11299, 11347); (11300, 11348); (11301, 11349); (11302, 11350); (11303, 11351); (11304, 11352);
    (11305, 11353); (11306, 11354); (11307, 11355); (11308, 11356); (11309, 11357); (11310, 11358);
    (11311, 11359); (11360, 11361); (11362, 619); (11363, 7549); (11364, 637); (11367, 11368);
    (11369, 11370); (11371, 11372); (11373, 593); (11374, 625); (11375, 592); (11376, 594);
    (11378, 11379); (11381, 11382); (11390, 575); (11391, 576); (11392, 11393); (11394, 11395);
    (11396, 11397); (11398, 11399); (11400, 11401); (11402, 11403); (11404, 11405); (11406, 11407);
    (11408, 11409); (11410, 11411); (11412, 11413); (11414, 11415); (11416, 11417); (11418, 11419);
    (11420, 11421); (11422, 11423); (11424, 11425); (11426, 11427); (11428, 11429); (11430, 11431);
    (11432, 11433); (11434, 11435); (11436, 11437); (11438, 11439); (11440, 11441); (11442, 11443);
    (11444, 11445); (11446, 11447); (11448, 11449); (11450, 11451); (11452, 11453); (11454, 11455);
    (11456, 11457); (11458, 11459); (11460, 11461); (11462, 11463); (11464, 11465); (11466, 11467);
    (11468, 11469); (11470, 11471); (11472, 11473); (11474, 11475); (11476, 11477); (11478, 11479);
    (11480, 11481); (11482, 11483); (11484, 11485); (11486, 11487); (11488, 11489); (11490, 11491);
    (11499, 11500); (11501, 11502); (11506, 11507); (42560, 42561); (42562, 42563); (42564, 42565);
    (42566, 42567); (42568, 42569); (42570, 42571); (42572, 42573); (42574, 42575); (42576, 42577);
    (42578, 42579); (42580, 42581); (42582, 42583); (42584, 42585); (42586, 42587); (42588, 42589);
    (42590, 42591); (42592, 42593); (42594, 42595); (42596, 42597); (42598, 42599); (42600, 42601);
    (42602, 42603); (42604, 42605); (42624, 42625); (42626, 42627); (42628, 42629); (42630, 42631);
    (42632, 42633); (42634, 42635); (42636, 42637); (42638, 42639); (42640, 42641); (42642, 42643);
    (42644, 42645); (42646, 42647); (42648, 42649); (42650, 42651); (42786, 42787); (42788, 42789);
    (42790, 42791); (42792, 42793); (42794, 42795); (42796, 42797); (42798, 42799); (42802, 42803);
    (42804, 42805); (42806, 42807); (42808, 42809); (42810, 42811); (42812, 42813); (42814, 42815);
    (42816, 42817); (42818, 42819); (42820, 42821); (42822, 42823); (42824, 42825); (42826, 42827);
    (42828, 42829); (42830, 42831); (42832, 42833); (42834, 42835); (42836, 42837); (42838, 42839);
    (42840, 42841); (42842, 42843); (42844, 42845); (42846, 42847); (42848, 42849); (42850, 42851);
    (42852, 42853); (42854, 42855); (42856, 42857); (42858, 42859); (42860, 42861); (42862, 42863);
    (42873, 42874); (42875, 42876); (42877, 7545); (42878, 42879); (42880, 42881); (42882, 42883);
    (42884, 42885); (42886, 42887); (42891, 42892); (42893, 613); (42896, 42897); (42898, 42899);
    (42902, 42903); (42904, 42905); (42906, 42907); (42908, 42909); (42910, 42911); (42912, 42913);
    (42914, 42915); (42916, 42917); (42918, 42919); (42920, 42921); (42922, 614); (42923, 604);
    (42924, 609); (42925, 620); (42926, 618); (42928, 670); (42929, 647); (42930, 669);
    (42931, 43859); (42932, 42933); (42934, 42935); (42936, 42937); (42938, 42939); (42940, 42941);
    (42942, 42943); (42944, 42945); (42946, 42947); (42948, 42900); (42949, 642); (42950, 7566);
    (42951, 42952); (42953, 42954); (42960, 42961); (42966, 42967); (42968, 42969); (42997, 42998);
    (65313, 65345); (65314, 65346); (65315, 65347); (65316, 65348); (65317, 65349); (65318, 65350);
    (65319, 65351); (65320, 65352); (65321, 65353); (65322, 65354); (65323, 65355); (65324, 65356);
    (65325, 65357); (65326, 65358); (65327, 65359); (65328, 65360); (65329, 65361); (65330, 65362);
    (65331, 65363); (65332, 65364); (65333, 65365); (65334, 65366); (65335, 65367); (65336, 65368);
    (65337, 65369); (65338, 65370); (66560, 66600); (66561, 66601); (66562, 66602); (66563, 66603);
    (66564, 66604); (66565, 66605); (66566, 66606); (66567, 66607); (66568, 66608); (66569, 66609);
    (66570, 66610); (66571, 66611); (66572, 66612); (66573, 66613); (66574, 66614); (66575, 66615);
    (66576, 66616); (66577, 66617); (66578, 66618); (66579, 66619); (66580, 66620); (66581, 66621);
    (66582, 66622); (66583, 66623); (66584, 66624); (66585, 66625); (66586, 66626); (66587, 66627);
    (66588, 66628); (66589, 66629); (66590, 66630); (66591, 66631); (66592, 66632); (66593, 66633);
    (66594, 66634); (66595, 66635); (66596, 66636); (66597, 66637); (66598, 66638); (66599, 66639);
    (66736, 66776); (66737, 66777); (66738, 66778); (66739, 66779); (66740, 66780); (66741, 66781);
    (66742, 66782); (66743, 66783); (66744, 66784); (66745, 66785); (66746, 66786); (66747, 66787);
    (66748, 66788); (66749, 66789); (66750, 66790); (66751, 66791); (66752, 66792); (66753, 66793);
    (66754, 66794); (66755, 66795); (66756, 66796); (66757, 66797); (66758, 66798); (66759, 66799);
    (66760, 66800); (66761, 66801); (66762, 66802); (66763, 66803); (66764, 66804); (66765, 66805);
    (66766, 66806); (66767, 66807); (66768, 66808); (66769, 66809); (66770, 66810); (66771, 66811);
    (66928, 66967); (66929, 66968); (66930, 66969); (66931, 66970); (66932, 66971); (66933, 66972);
    (66934, 66973); (66935, 66974); (66936, 66975); (66937, 66976); (66938, 66977); (66940, 66979);
    (66941, 66980); (66942, 66981); (66943, 66982); (66944, 66983); (66945, 66984); (66946, 66985);
    (66947, 66986); (66948, 66987); (66949, 66988); (66950, 66989); (66951, 66990); (66952, 66991);
    (66953, 66992); (66954, 66993); (66956, 66995); (66957, 66996); (66958, 66997); (66959, 66998);
    (66960, 66999); (66961, 67000); (66962, 67001); (66964, 67003); (66965, 67004); (68736, 68800);
    (68737, 68801); (68738, 68802); (68739, 68803); (68740, 68804); (68741, 68805); (68742, 68806);
    (68743, 68807); (68744, 68808); (68745, 68809); (68746, 68810); (68747, 68811); (68748, 68812);
    (68749, 68813); (68750, 68814); (68751, 68815); (68752, 68816); (68753, 68817); (68754, 68818);
    (68755, 68819); (68756, 68820); (68757, 68821); (68758, 68822); (68759, 68823); (68760, 68824);
    (68761, 68825); (68762, 68826); (68763, 68827); (68764, 68828); (68765, 68829); (68766, 68830);
    (68767, 68831); (68768, 68832); (68769, 68833); (68770, 68834); (68771, 68835); (68772, 68836);
    (68773, 68837); (68774, 68838); (68775, 68839); (68776, 68840); (68777, 68841); (68778, 68842);
    (68779, 68843); (68780, 68844); (68781, 68845); (68782, 68846); (68783, 68847); (68784, 68848);
    (68785, 68849); (68786, 68850); (71840, 71872); (71841, 71873); (71842, 71874); (71843, 71875);
    (71844, 71876); (71845, 71877); (71846, 71878); (71847, 71879); (71848, 71880); (71849, 71881);
    (71850, 71882); (71851, 71883); (71852, 71884); (71853, 71885); (71854, 71886); (71855, 71887);
    (71856, 71888); (71857, 71889); (71858, 71890); (71859, 71891); (71860, 71892); (71861, 71893);
    (71862, 71894); (71863, 71895); (71864, 71896); (71865, 71897); (71866, 71898); (71867, 71899);
    (71868, 71900); (71869, 71901); (71870, 71902); (71871, 71903); (93760, 93792); (93761, 93793);
    (93762, 93794); (93763, 93795); (93764, 93796); (93765, 93797); (93766, 93798); (93767, 93799);
    (93768, 93800); (93769, 93801); (93770, 93802); (93771, 93803); (93772, 93804); (93773, 93805);
    (93774, 93806); (93775, 93807); (93776, 93808); (93777, 93809); (93778, 93810); (93779, 93811);
    (93780, 93812); (93781, 93813); (93782, 93814); (93783, 93815); (93784, 93816); (93785, 93817);
    (93786, 93818); (93787, 93819); (93788, 93820); (93789, 93821); (93790, 93822); (93791, 93823);
    (125184, 125218); (125185, 125219); (125186, 125220); (125187, 125221); (125188, 125222); (125189, 125223);
    (125190, 125224); (125191, 125225); (125192, 125226); (125193, 125227); (125194, 125228); (125195, 125229);
    (125196, 125230); (125197, 125231); (125198, 125232); (125199, 125233); (125200, 125234); (125201, 125235);
    (125202, 125236); (125203, 125237); (125204, 125238); (125205, 125239); (125206, 125240); (125207, 125241);
    (125208, 125242); (125209, 125243); (125210, 125244); (125211, 125245); (125212, 125246); (125213, 125247);
    (125214, 125248); (125215, 125249); (125216, 125250); (125217, 125251) ]%N.

(** The ranges of the code points with the property Case_Ignorable. *)
Definition case_ignorable_ranges : list (N * N) :=
  [
    (39, 39); (46, 46); (58, 58); (94, 94); (96, 96); (168, 168);
    (173, 173); (175, 175); (180, 180); (183, 184); (688, 879); (884, 885);
    (890, 890); (900, 901); (903, 903); (1155, 1161); (1369, 1369); (1375, 1375);
    (1425, 1469); (1471, 1471); (1473, 1474); (1476, 1477); (1479, 1479); (1524, 1524);
    (1536, 1541); (1552, 1562); (1564, 1564); (1600, 1600); (1611, 1631); (1648, 1648);
    (1750, 1757); (1759, 1768); (1770, 1773); (1807, 1807); (1809, 1809); (1840, 1866);
    (1958, 1968); (2027, 2037); (2042, 2042); (2045, 2045); (2070, 2093); (2137, 2139);
    (2184, 2184); (2192, 2193); (2200, 2207); (2249, 2306); (2362, 2362); (2364, 2364);
    (2369, 2376); (2381, 2381); (2385, 2391); (2402, 2403); (2417, 2417); (2433, 2433);
    (2492, 2492); (2497, 2500); (2509, 2509); (2530, 2531); (2558, 2558); (2561, 2562);
    (2620, 2620); (2625, 2626); (2631, 2632); (2635, 2637); (2641, 2641); (2672, 2673);
    (2677, 2677); (2689, 2690); (2748, 2748); (2753, 2757); (2759, 2760); (2765, 2765);
    (2786, 2787); (2810, 2815); (2817, 2817); (2876, 2876); (2879, 2879); (2881, 2884);
    (2893, 2893); (2901, 2902); (2914, 2915); (2946, 2946); (3008, 3008); (3021, 3021);
    (3072, 3072); (3076, 3076); (3132, 3132); (3134, 3136); (3142, 3144); (3146, 3149);
    (3157, 3158); (3170, 3171); (3201, 3201); (3260, 3260); (3263, 3263); (3270, 3270);
    (3276, 3277); (3298, 3299); (3328, 3329); (3387, 3388); (3393, 3396); (3405, 3405);
    (3426, 3427); (3457, 3457); (3530, 3530); (3538, 3540); (3542, 3542); (3633, 3633);
    (3636, 3642); (3654, 3662); (3761, 3761); (3764, 3772); (3782, 3782); (3784, 3789);
    (3864, 3865); (3893, 3893); (3895, 3895); (3897, 3897); (3953, 3966); (3968, 3972);
    (3974, 3975); (3981, 3991); (3993, 4028); (4038, 4038); (4141, 4144); (4146, 4151);
    (4153, 4154); (4157, 4158); (4184, 4185); (4190, 4192); (4209, 4212); (4226, 4226);
    (4229, 4230); (4237, 4237); (4253, 4253); (4348, 4348); (4957, 4959); (5906, 5908);
    (5938, 5939); (5970, 5971); (6002, 6003); (6068, 6069); (6071, 6077); (6086, 6086);
    (6089, 6099); (6103, 6103); (6109, 6109); (6155, 6159); (6211, 6211); (6277, 6278);
    (6313, 6313); (6432, 6434); (6439, 6440); (6450, 6450); (6457, 6459); (6679, 6680);
    (6683, 6683); (6742, 6742); (6744, 6750); (6752, 6752); (6754, 6754); (6757, 6764);
    (6771, 6780); (6783, 6783); (6823, 6823); (6832, 6862); (6912, 6915); (6964, 6964);
    (6966, 6970); (6972, 6972); (6978, 6978); (7019, 7027); (7040, 7041); (7074, 7077);
    (7080, 7081); (7083, 7085); (7142, 7142); (7144, 7145); (7149, 7149); (7151, 7153);
    (7212, 7219); (7222, 7223); (7288, 7293); (7376, 7378); (7380, 7392); (7394, 7400);
    (7405, 7405); (7412, 7412); (7416, 7417); (7468, 7530); (7544, 7544); (7579, 7679);
    (8125, 8125); (8127, 8129); (8141, 8143); (8157, 8159); (8173, 8175); (8189, 8190);
    (8203, 8207); (8216, 8217); (8228, 8228); (8231, 8231); (8234, 8238); (8288, 8292);
    (8294, 8303); (8305, 8305); (8319, 8319); (8336, 8348); (8400, 8432); (11388, 11389);
    (11503, 11505); (11631, 11631); (11647, 11647); (11744, 11775); (11823, 11823); (12293, 12293);
    (12330, 12333); (12337, 12341); (12347, 12347); (12441, 12446); (12540, 12542); (40981, 40981);
    (42232, 42237); (42508, 42508); (42607, 42610); (42612, 42621); (42623, 42623); (42652, 42655);
    (42736, 42737); (42752, 42785); (42864, 42864); (42888, 42890); (42994, 42996); (43000, 43001);
    (43010, 43010); (43014, 43014); (43019, 43019); (43045, 43046); (43052, 43052); (43204, 43205);
    (43232, 43249); (43263, 43263); (43302, 43309); (43335, 43345); (43392, 43394); (43443, 43443);
    (43446, 43449); (43452, 43453); (43471, 43471); (43493, 43494); (43561, 43566); (43569, 43570);
    (43573, 43574); (43587, 43587); (43596, 43596); (43632, 43632); (43644, 43644); (43696, 43696);
    (43698, 43700); (43703, 43704); (43710, 43711); (43713, 43713); (43741, 43741); (43756, 43757);
    (43763, 43764); (43766, 43766); (43867, 43871); (43881, 43883); (44005, 44005); (44008, 44008);
    (44013, 44013); (64286, 64286); (64434, 64450); (65024, 65039); (65043, 65043); (65056, 65071);
    (65106, 65106); (65109, 65109); (65279, 65279); (65287, 65287); (65294, 65294); (65306, 65306);
    (65342, 65342); (65344, 65344); (65392, 65392); (65438, 65439); (65507, 65507); (65529, 65531);
    (66045, 66045); (66272, 66272); (66422, 66426); (67456, 67461); (67463, 67504); (67506, 67514);
    (68097, 68099); (68101, 68102); (68108, 68111); (68152, 68154); (68159, 68159); (68325, 68326);
    (68900, 68903); (69291, 69292); (69446, 69456); (69506, 69509); (69633, 69633); (69688, 69702);
    (69744, 69744); (69747, 69748); (69759, 69761); (69811, 69814); (69817, 69818); (69821, 69821);
    (69826, 69826); (69837, 69837); (69888, 69890); (69927, 69931); (69933, 69940); (70003, 70003);
    (70016, 70017); (70070, 70078); (70089, 70092); (70095, 70095); (70191, 70193); (70196, 70196);
    (70198, 70199); (70206, 70206); (70367, 70367); (70371, 70378); (70400, 70401); (70459, 70460);
    (70464, 70464); (70502, 70508); (70512, 70516); (70712, 70719); (70722, 70724); (70726, 70726);
    (70750, 70750); (70835, 70840); (70842, 70842); (70847, 70848); (70850, 70851); (71090, 71093);
    (71100, 71101); (71103, 71104); (71132, 71133); (71219, 71226); (71229, 71229); (71231, 71232);
    (71339, 71339); (71341, 71341); (71344, 71349); (71351, 71351); (71453, 71455); (71458, 71461);
    (71463, 71467); (71727, 71735); (71737, 71738); (71995, 71996); (71998, 71998); (72003, 72003);
    (72148, 72151); (72154, 72155); (72160, 72160); (72193, 72202); (72243, 72248); (72251, 72254);
    (72263, 72263); (72273, 72278); (72281, 72283); (72330, 72342); (72344, 72345); (72752, 72758);
    (72760, 72765); (72767, 72767); (72850, 72871); (72874, 72880); (72882, 72883); (72885, 72886);
    (73009, 73014); (73018, 73018); (73020, 73021); (73023, 73029); (73031, 73031); (73104, 73105);
    (73109, 73109); (73111, 73111); (73459, 73460); (78896, 78904); (92912, 92916); (92976, 92982);
    (92992, 92995); (94031, 94031); (94095, 94111); (94176, 94177); (94179, 94180); (110576, 110579);
    (110581, 110587); (110589, 110590); (113821, 113822); (113824, 113827); (118528, 118573); (118576, 118598);
    (119143, 119145); (119155, 119170); (119173, 119179); (119210, 119213); (119362, 119364); (121344, 121398);
    (121403, 121452); (121461, 121461); (121476, 121476); (121499, 121503); (121505, 121519); (122880, 122886);
    (122888, 122904); (122907, 122913); (122915, 122916); (122918, 122922); (123184, 123197); (123566, 123566);
    (123628, 123631); (125136, 125142); (125252, 125259); (127995, 127999); (917505, 917505); (917536, 917631);
    (917760, 917999) ]%N.

(** The ranges of the code points with the property Cased. *)
Definition cased_ranges : list (N * N) :=
  [
    (65, 90); (97, 122); (170, 170); (181, 181); (186, 186); (192, 214);
    (216, 246); (248, 442); (444, 447); (452, 659); (661, 696); (704, 705);
    (736, 740); (837, 837); (880, 883); (886, 887); (890, 893); (895, 895);
    (902, 902); (904, 906); (908, 908); (910, 929); (931, 1013); (1015, 1153);
    (1162, 1327); (1329, 1366); (1376, 1416); (4256, 4293); (4295, 4295); (4301, 4301);
    (4304, 4346); (4349, 4351); (5024, 5109); (5112, 5117); (7296, 7304); (7312, 7354);
    (7357, 7359); (7424, 7615); (7680, 7957); (7960, 7965); (7968, 8005); (8008, 8013);
    (8016, 8023); (8025, 8025); (8027, 8027); (8029, 8029); (8031, 8061); (8064, 8116);
    (8118, 8124); (8126, 8126); (8130, 8132); (8134, 8140); (8144, 8147); (8150, 8155);
    (8160, 8172); (8178, 8180); (8182, 8188); (8305, 8305); (8319, 8319); (8336, 8348);
    (8450, 8450); (8455, 8455); (8458, 8467); (8469, 8469); (8473, 8477); (8484, 8484);
    (8486, 8486); (8488, 8488); (8490, 8493); (8495, 8500); (8505, 8505); (8508, 8511);
    (8517, 8521); (8526, 8526); (8544, 8575); (8579, 8580); (9398, 9449); (11264, 11492);
    (11499, 11502); (11506, 11507); (11520, 11557); (11559, 11559); (11565, 11565); (42560, 42605);
    (42624, 42653); (42786, 42887); (42891, 42894); (42896, 42954); (42960, 42961); (42963, 42963);
    (42965, 42969); (42997, 42998); (43000, 43002); (43824, 43866); (43868, 43880); (43888, 43967);
    (64256, 64262); (64275, 64279); (65313, 65338); (65345, 65370); (66560, 66639); (66736, 66771);
    (66776, 66811); (66928, 66938); (66940, 66954); (66956, 66962); (66964, 66965); (66967, 66977);
    (66979, 66993); (66995, 67001); (67003, 67004); (67456, 67456); (67459, 67461); (67463, 67504);
    (67506, 67514); (68736, 68786); (68800, 68850); (71840, 71903); (93760, 93823); (119808, 119892);
    (119894, 119964); (119966, 119967); (119970, 119970); (119973, 119974); (119977, 119980); (119982, 119993);
    (119995, 119995); (119997, 120003); (120005, 120069); (120071, 120074); (120077, 120084); (120086, 120092);
    (120094, 120121); (120123, 120126); (120128, 120132); (120134, 120134); (120138, 120144); (120146, 120485);
    (120488, 120512); (120514, 120538); (120540, 120570); (120572, 120596); (120598, 120628); (120630, 120654);
    (120656, 120686); (120688, 120712); (120714, 120744); (120746, 120770); (120772, 120779); (122624, 122633);
    (122635, 122654); (125184, 125251); (127280, 127305); (127312, 127337); (127344, 127369) ]%N.

Definition isspace (c : N) : bool := existsb (N.eqb c) whitespace.

(** The one-to-one part of the lower-case mapping. *)
Definition simple_lower (c : N) : option N :=
  snd <$> List.find (fun entry => N.eqb (fst entry) c) lower_table.

(** The full lower-case mapping of one code point.  U+0130, the capital I
    with a dot above, is the only one that becomes two. *)
Definition to_lower_full (c : N) : list N :=
  if (c =? 304)%N then [105; 775]%N
  else match simple_lower c with
       | Some l => [l]
       | None => [c]
       end.

Definition in_ranges (c : N) (ranges : list (N * N)) : bool :=
  existsb (fun r => (fst r <=? c)%N && (c <=? snd r)%N) ranges.

Definition case_ignorable (c : N) : bool := in_ranges c case_ignorable_ranges.

Definition cased (c : N) : bool := in_ranges c cased_ranges.

(** The first code point that is not case-ignorable. *)
Fixpoint first_not_ignorable (s : list N) : option N :=
  match s with
  | [] => None
  | c :: r => if case_ignorable c then first_not_ignorable r else Some c
  end.

(** The capital sigma U+03A3 becomes the final sigma U+03C2 when a cased
    letter comes before it and none comes after it, case-ignorable code
    points being skipped on both sides; otherwise it becomes U+03C3.
    [before] holds what precedes, nearest first. *)
Definition handle_capital_sigma (before after : list N) : N :=
  match first_not_ignorable before with
  | Some c =>
      if cased c then
        match first_not_ignorable after with
        | Some d => if cased d then 963%N else 962%N
        | None => 962%N
        end
      else 963%N
  | None => 963%N
  end.

(** What one code point of a string becomes. *)
Definition lower_ucs4 (before : list N) (c : N) (after : list N) : list N :=
  if (c =? 931)%N then [handle_capital_sigma before after]
  else to_lower_full c.

Fixpoint lower_from (before : list N) (s : list N) : list N :=
  match s with
  | [] => []
  | c :: after => lower_ucs4 before c after ++ lower_from (c :: before) after
  end.

(** [s.lower()] *)
Definition lower (s : list N) : list N := lower_from [] s.

Fixpoint lstrip (s : list N) : list N :=
  match s with
  | [] => []
  | c :: r => if isspace c then lstrip r else s
  end.

Fixpoint rstrip (s : list N) : list N :=
  match s with
  | [] => []
  | c :: r =>
      match rstrip r with
      | [] => if isspace c then [] else [c]
      | r' => c :: r'
      end
  end.

(** [s.strip()] with no argument. *)
Definition strip (s : list N) : list N := rstrip (lstrip s).

(** A string of the agent model, as the [str] it stands for. *)
Fixpoint of_string (s : string) : list N :=
  match s with
  | EmptyString => []
  | String c r => N_of_ascii c :: of_string r
  end.

(** The other way round, for a [str] that has no code point above 255. *)
Fixpoint to_string (s : list N) : option string :=
  match s with
  | [] => Some EmptyString
  | c :: r =>
      if (c <? 256)%N then String (ascii_of_N c) <$> to_string r else None
  end.

(** [NLP_REFERENCE_KB.get(key)]: the keys of the knowledge base are ASCII, so
    only a key that is a string of the agent model can be one of them. *)
Definition kb_get (key : list N) : option json :=
  match to_string key with
  | Some k => NLP_REFERENCE_KB !! k
  | None => None
  end.

(** [nlp_concept_kb_lookup] on any [str]. *)
Definition nlp_concept_kb_lookup (term : list N) : string :=
  let key := strip (lower term) in
  match kb_get key with
  | Some entry => Json.dumps entry
  | None => Json.dumps CONCEPT_NOT_FOUND
  end.

(** A code point that [str.lower] leaves alone wherever it stands. *)
Definition stable (c : N) : bool :=
  negb (c =? 931)%N && negb (c =? 304)%N
  && match simple_lower c with
     | Some _ => false
     | None => true
     end.

(** A string that does not begin with white space. *)
Definition trimmed_left (s : list N) : Prop :=
  match s with
  | [] => True
  | c :: _ => isspace c = false
  end.

End Unicode.

(* ===================================================================== *)
(** * Properties *)
(* ===================================================================== *)

(** ** Strings *)

Module PyStrFacts.
Import PyStr.

Lemma isspace_lower_char c : isspace (lower_char c) = isspace c.
Proof. destruct c as [[] [] [] [] [] [] [] []]; reflexivity. Qed.

Lemma lower_char_idem c : lower_char (lower_char c) = lower_char c.
Proof. destruct c as [[] [] [] [] [] [] [] []]; reflexivity. Qed.

Lemma lower_idem s : lower (lower s) = lower s.
Proof.
  induction s as [|c r IH]; simpl; [reflexivity|].
  now rewrite lower_char_idem, IH.
Qed.

Lemma lower_lstrip s : lower (lstrip s) = lstrip (lower s).
Proof.
  induction s as [|c r IH]; simpl; [reflexivity|].
  rewrite isspace_lower_char. destruct (isspace c); [exact IH|reflexivity].
Qed.

Lemma lower_rstrip s : lower (rstrip s) = rstrip (lower s).
Proof.
  induction s as [|c r IH]; simpl; [reflexivity|].
  rewrite <- IH, isspace_lower_char.
  destruct (rstrip r) as [|c' r']; simpl.
  - destruct (isspace c); reflexivity.
  - reflexivity.
Qed.

Lemma lower_strip s : lower (strip s) = strip (lower s).
Proof. unfold strip. now rewrite lower_rstrip, lower_lstrip. Qed.

Lemma lstrip_trimmed s : trimmed_left (lstrip s).
Proof.
  induction s as [|c r IH]; simpl; [exact I|].
  destruct (isspace c) eqn:Hc; [exact IH|exact Hc].
Qed.

Lemma lstrip_id s : trimmed_left s -> lstrip s = s.
Proof. destruct s as [|c r]; simpl; [reflexivity|]. now intros ->. Qed.

Lemma rstrip_trimmed s : trimmed_left s -> trimmed_left (rstrip s).
Proof.
  destruct s as [|c r]; simpl; [trivial|]. intros Hc.
  destruct (rstrip r); [rewrite Hc|]; exact Hc.
Qed.

Lemma rstrip_idem s : rstrip (rstrip s) = rstrip s.
Proof.
  induction s as [|c r IH]; simpl; [reflexivity|].
  destruct (rstrip r) as [|c' r'] eqn:Hr.
  - destruct (isspace c) eqn:Hc; simpl; [reflexivity|now rewrite Hc].
  - change (rstrip (String c (String c' r'))) with
      (match rstrip (String c' r') with
       | EmptyString => if isspace c then EmptyString else String c EmptyString
       | r0 => String c r0
       end).
    now rewrite IH.
Qed.

Lemma strip_idem s : strip (strip s) = strip s.
Proof.
  unfold strip.
  rewrite (lstrip_id (rstrip (lstrip s))).
  - apply rstrip_idem.
  - apply rstrip_trimmed, lstrip_trimmed.
Qed.

(** [t.lower().strip()] is a normal form. *)
Lemma normalise_idem s : strip (lower (strip (lower s))) = strip (lower s).
Proof. now rewrite lower_strip, lower_idem, strip_idem. Qed.

End PyStrFacts.

(** ** The knowledge-base tool *)

(** On the strings of the agent model the lookup of [term] is the lookup of
    [term.lower().strip()], and a term whose normal form is not a key of the
    knowledge base gets the JSON text of the not-found error, from the
    function and from the tool built on it alike. *)
Lemma kb_lookup_normalised_below_256 (term : string) :
  nlp_concept_kb_lookup term
    = nlp_concept_kb_lookup (PyStr.strip (PyStr.lower term))
  /\ (NLP_REFERENCE_KB !! PyStr.strip (PyStr.lower term) = None ->
      nlp_concept_kb_lookup term = NOT_FOUND_JSON
      /\ tool_invoke nlp_concept_kb_lookup_tool [("term", JStr term)]
           = Ok NOT_FOUND_JSON).
Proof.
  split.
  - unfold nlp_concept_kb_lookup. now rewrite PyStrFacts.normalise_idem.
  - intros Hnone.
    assert (Hf : nlp_concept_kb_lookup term = NOT_FOUND_JSON).
    { unfold nlp_concept_kb_lookup. rewrite Hnone. vm_compute. reflexivity. }
    split; [exact Hf|].
    cbn. now rewrite Hf.
Qed.

(** ** The execution monad *)

Lemma bind_ok_inv {A B} (m : run A) (k : A -> run B) t b :
  bind m k = (t, Ok b) ->
  exists t1 a t2, m = (t1, Ok a) /\ k a = (t2, Ok b) /\ t = t1 ++ t2.
Proof.
  unfold bind. destruct m as [t1 [a|e]]; [|discriminate].
  destruct (k a) as [t2 r] eqn:Hk. intros [= <- ->]. eauto 6.
Qed.

Lemma bind_ok {A B} (m : run A) (k : A -> run B) t1 a :
  m = (t1, Ok a) -> bind m k = (t1 ++ fst (k a), snd (k a)).
Proof. intros ->. unfold bind. now destruct (k a). Qed.

Lemma bind_err {A B} (m : run A) (k : A -> run B) t1 e :
  m = (t1, Err e) -> bind m k = (t1, Err e).
Proof. now intros ->. Qed.

Lemma bind_lift_ok {A B} (a : A) (k : A -> run B) : bind (lift (Ok a)) k = k a.
Proof. unfold bind, lift. now destruct (k a). Qed.

(** ** Each node adds one to the step count *)

Lemma node_llm_steps E st t u :
  node_llm E st = (t, Ok u) ->
  t = [] /\ u_steps u = steps st + 1 /\
  exists content tcs,
    llm_with_tools_invoke E (SYSTEM_MESSAGE :: messages st) = Ok (content, tcs)
    /\ u_messages u = [AIMessage content tcs].
Proof.
  unfold node_llm, lift, bind, ret.
  destruct (llm_with_tools_invoke E _) as [[content tcs]|e]; [|discriminate].
  intros [= <- <-]. simpl. repeat split. eauto.
Qed.

Lemma node_tools_steps E st t u :
  node_tools E st = (t, Ok u) -> u_steps u = steps st + 1.
Proof.
  unfold node_tools. intros H.
  apply bind_ok_inv in H as (t1 & m & t2 & _ & H & _).
  apply bind_ok_inv in H as (t3 & tcs & t4 & _ & H & _).
  apply bind_ok_inv in H as (t5 & obs & t6 & _ & H & _).
  now injection H as _ <-.
Qed.

Lemma node_out_of_domain_steps st t u :
  node_out_of_domain st = (t, Ok u) ->
  t = [] /\ u = {| u_messages := [SystemMessage OUT_OF_DOMAIN_TEXT];
                   u_steps := steps st + 1 |}.
Proof. unfold node_out_of_domain, ret. now intros [= <- <-]. Qed.

Lemma graph_step_inv E max_steps n st t tg st' :
  graph_step E max_steps n st = (t, Ok (tg, st')) ->
  exists t0 u,
    t = EvNode n :: t0
    /\ st' = apply_update st u
    /\ match n with
       | N_out_of_domain => node_out_of_domain st = (t0, Ok u) /\ tg = END
       | N_llm =>
           node_llm E st = (t0, Ok u) /\
           exists r, route_after_llm max_steps st' = Ok r /\
                     tg = match r with Continue => To N_tools | End_ => END end
       | N_tools => node_tools E st = (t0, Ok u) /\ tg = To N_llm
       end.
Proof.
  unfold graph_step. intros H.
  apply bind_ok_inv in H as (t1 & [] & t2 & Hemit & H & ->).
  injection Hemit as <-. destruct n.
  - apply bind_ok_inv in H as (t3 & u & t4 & Hn & H & ->).
    injection H as <- <- <-. exists t3, u. rewrite app_nil_r. auto.
  - apply bind_ok_inv in H as (t3 & u & t4 & Hn & H & ->).
    apply bind_ok_inv in H as (t5 & r & t6 & Hr & H & ->).
    injection Hr as <- Hr. injection H as <- <- <-.
    exists t3, u. rewrite app_nil_r. simpl. eauto 6.
  - apply bind_ok_inv in H as (t3 & u & t4 & Hn & H & ->).
    injection H as <- <- <-. exists t3, u. rewrite app_nil_r. auto.
Qed.

Lemma graph_step_steps E max_steps n st t tg st' :
  graph_step E max_steps n st = (t, Ok (tg, st')) -> steps st' = steps st + 1.
Proof.
  intros H. apply graph_step_inv in H as (t0 & u & _ & -> & Hn). simpl.
  destruct n.
  - destruct Hn as [Hn _]. apply node_out_of_domain_steps in Hn as [_ ->]. reflexivity.
  - destruct Hn as [Hn _]. now apply node_llm_steps in Hn as (_ & -> & _).
  - destruct Hn as [Hn _]. now apply node_tools_steps in Hn.
Qed.

(** C3: along any run the step count never decreases, and it grows by exactly
    one for each node that runs: after [k] nodes it has grown by [k].  The
    update of the language-model node and the update of the tools node each
    carry the step count plus one, whatever the number of tool calls in the
    message at hand. *)
Theorem step_count_one_per_node E max_steps k t c c' :
  steps_to E max_steps k t c c' ->
  steps (snd c') = steps (snd c) + Z.of_nat k
  /\ steps (snd c) <= steps (snd c')
  /\ (forall st t1 u, node_llm E st = (t1, Ok u) -> u_steps u = steps st + 1)
  /\ (forall st t1 u, node_tools E st = (t1, Ok u) -> u_steps u = steps st + 1).
Proof.
  intros Hchain.
  assert (Hk : steps (snd c') = steps (snd c) + Z.of_nat k).
  { induction Hchain as [c|k n st t [tg st1] t' c'' Hstep Hrest IH].
    - simpl. lia.
    - apply graph_step_steps in Hstep. simpl in *. lia. }
  split; [exact Hk|]. split; [lia|]. split.
  - intros st t1 u Hn. now apply node_llm_steps in Hn as (_ & -> & _).
  - intros st t1 u Hn. now apply node_tools_steps in Hn.
Qed.

Lemma step_count_one_per_node_witness :
  exists t c',
    steps_to (Demo.greedy "sure") MAX_STEPS 2 t
             (To N_llm, initial_state "What is BERT?") c'
    /\ steps (snd c') = 2.
Proof.
  eexists _, _.
  refine ((fun H => conj H (proj1 (step_count_one_per_node _ _ _ _ _ _ H))) _).
  eapply steps_to_next; [vm_compute; reflexivity|].
  eapply steps_to_next; [vm_compute; reflexivity|].
  apply steps_to_refl.
Defined.

(** ** The budget *)

Lemma route_after_llm_inv max_steps st r :
  route_after_llm max_steps st = Ok r ->
  match r with
  | End_ => True
  | Continue =>
      steps st < max_steps /\
      exists pre content tc tcs,
        messages st = pre ++ [AIMessage content (tc :: tcs)]
  end.
Proof.
  unfold route_after_llm.
  destruct (Z.leb_spec max_steps (steps st)) as [Hle|Hlt].
  - now intros [= <-].
  - unfold last_item. destruct (last (messages st)) as [m|] eqn:Hlast; [|discriminate].
    simpl. destruct r; [|trivial]. intros Hr. split; [exact Hlt|].
    apply last_Some in Hlast as [pre Hpre].
    destruct m as [c|c|c [|tc tcs]|c n i]; try discriminate. eauto.
Qed.

Lemma run_from_END E max_steps limit st :
  run_from E max_steps (S limit) END st = ([], Ok st).
Proof. reflexivity. Qed.

Lemma run_from_END_inv E max_steps limit st t st' :
  run_from E max_steps limit END st = (t, Ok st') -> t = [] /\ st' = st.
Proof. destruct limit; [discriminate|]. now intros [= <- <-]. Qed.

Lemma run_from_node_inv E max_steps limit n st t st' :
  run_from E max_steps limit (To n) st = (t, Ok st') ->
  exists limit' t1 tg st1 t2,
    limit = S limit' /\ t = t1 ++ t2
    /\ graph_step E max_steps n st = (t1, Ok (tg, st1))
    /\ run_from E max_steps limit' tg st1 = (t2, Ok st').
Proof.
  destruct limit as [|limit']; [discriminate|]. simpl. intros H.
  apply bind_ok_inv in H as (t1 & [tg st1] & t2 & Hstep & Hrest & ->).
  exists limit', t1, tg, st1, t2. auto.
Qed.

(** A run that ends normally is a chain of node executions up to [END]. *)
Lemma run_from_steps_to E max_steps limit : forall tg st t st',
  run_from E max_steps limit tg st = (t, Ok st') ->
  exists k, (k <= limit)%nat /\ steps_to E max_steps k t (tg, st) (END, st').
Proof.
  induction limit as [|limit IH]; intros tg st t st' H.
  - discriminate.
  - destruct tg as [n|].
    + apply run_from_node_inv in H
        as (l' & t1 & tg & st1 & t2 & [= <-] & -> & Hstep & Hrest).
      apply IH in Hrest as (k & Hk & Hsteps).
      exists (S k). split; [lia|]. econstructor; eassumption.
    + injection H as <- <-. exists 0%nat. split; [lia|constructor].
Qed.

Lemma step_bound_even_entry max_steps s :
  Z.even s = true -> s + 1 < max_steps -> s + 3 <= step_bound max_steps.
Proof.
  intros Hs Hlt. unfold step_bound.
  apply Z.even_spec in Hs as [a ->].
  destruct (Z.odd max_steps) eqn:Hm; [|lia].
  apply Z.odd_spec in Hm as [b ->]. lia.
Qed.

Lemma step_bound_pos max_steps : 0 <= max_steps -> 1 <= step_bound max_steps.
Proof.
  intros Hms. unfold step_bound. destruct (Z.odd max_steps) eqn:Hodd; [|lia].
  apply Z.odd_spec in Hodd as [b ->]. lia.
Qed.

Lemma step_bound_ge max_steps : max_steps <= step_bound max_steps <= max_steps + 1.
Proof. unfold step_bound. destruct (Z.odd max_steps); lia. Qed.

Lemma run_from_bound E max_steps limit : forall tg st t st',
  run_from E max_steps limit tg st = (t, Ok st') ->
  match tg with
  | END => steps st' = steps st
  | To N_out_of_domain => steps st' = steps st + 1
  | To N_llm =>
      Z.even (steps st) = true -> steps st + 1 <= step_bound max_steps ->
      steps st' <= step_bound max_steps
  | To N_tools =>
      Z.odd (steps st) = true -> steps st + 2 <= step_bound max_steps ->
      steps st' <= step_bound max_steps
  end.
Proof.
  induction limit as [|limit IH]; intros tg st t st' H.
  - discriminate.
  - destruct tg as [n|]; [|now injection H as _ <-].
    apply run_from_node_inv in H
      as (l' & t1 & tg & st1 & t2 & [= <-] & -> & Hstep & Hrest).
    pose proof (graph_step_steps _ _ _ _ _ _ _ Hstep) as Hs1.
    apply graph_step_inv in Hstep as (t0 & u & _ & Hst1 & Hn).
    apply IH in Hrest. destruct n.
    + destruct Hn as [_ ->]. lia.
    + destruct Hn as (_ & r & Hr & ->). intros Heven Hle.
      apply route_after_llm_inv in Hr. destruct r.
      * destruct Hr as [Hlt _]. apply Hrest.
        -- rewrite Hs1, Z.add_1_r, Z.odd_succ. exact Heven.
        -- pose proof (step_bound_even_entry max_steps (steps st) Heven). lia.
      * lia.
    + destruct Hn as [_ ->]. intros Hodd Hle. apply Hrest.
      * rewrite Hs1, Z.add_1_r, Z.even_succ. exact Hodd.
      * lia.
Qed.

Lemma invoke_inv E max_steps limit st t st' :
  invoke E max_steps limit st = (t, Ok st') ->
  exists r,
    route_domain_llm E st = Ok r
    /\ run_from E max_steps limit
         (To (match r with in_domain => N_llm | out_of_domain => N_out_of_domain end))
         st = (t, Ok st').
Proof.
  unfold invoke. intros H.
  apply bind_ok_inv in H as (t1 & r & t2 & Hr & H & ->).
  injection Hr as <- Hr. eauto.
Qed.

(** C1 (as amended): a run that starts at step count 0 and ends normally ends
    at a step count of at most [max_steps] when [max_steps] is odd and at most
    [max_steps + 1] when it is even: the budget is checked after the
    language-model node only, and the count has grown by two since the last
    check. *)
Theorem final_step_count_bound E max_steps limit st t st' :
  0 <= max_steps ->
  steps st = 0 ->
  invoke E max_steps limit st = (t, Ok st') ->
  steps st' <= (if Z.odd max_steps then max_steps else max_steps + 1).
Proof.
  intros Hms H0 H. apply invoke_inv in H as (r & _ & H).
  apply run_from_bound in H. fold (step_bound max_steps).
  pose proof (step_bound_pos max_steps Hms).
  destruct r.
  - apply H; rewrite H0; [reflexivity|lia].
  - lia.
Qed.

Lemma final_step_count_bound_witness :
  exists t st',
    agent_invoke (Demo.greedy "sure") "What is BERT?" = (t, Ok st')
    /\ steps st' <= 7.
Proof.
  eexists _, _.
  refine ((fun H => conj H
            (final_step_count_bound (Demo.greedy "sure") MAX_STEPS
               DEFAULT_RECURSION_LIMIT (initial_state "What is BERT?")
               _ _ _ eq_refl H)) _).
  - unfold MAX_STEPS. lia.
  - vm_compute. reflexivity.
Defined.

(** C1 fails as stated: with [MAX_STEPS = 6] a model that asks for tools at
    every turn ends the run at step count 7. *)
Lemma final_step_count_exceeds_budget :
  exists t st',
    agent_invoke (Demo.greedy "sure") "What is BERT?" = (t, Ok st')
    /\ ~ steps st' <= MAX_STEPS.
Proof.
  eexists _, _. split; [vm_compute; reflexivity|].
  vm_compute. intros H. apply H. reflexivity.
Qed.

(** ** The tool registry and the tools node *)

(** The registry has exactly the two names, compared as whole strings. *)
Lemma TOOLS_BY_NAME_lookup E (name : string) :
  TOOLS_BY_NAME E !! name =
    if decide (name = "nlp_concept_kb_lookup") then Some nlp_concept_kb_lookup_tool
    else if decide (name = "wikipedia_search") then Some (wikipedia_search E)
    else None.
Proof.
  unfold TOOLS_BY_NAME, TOOLS. simpl.
  repeat case_decide; subst; simplify_map_eq; reflexivity.
Qed.

Lemma TOOLS_BY_NAME_unknown E (name : string) :
  name <> "wikipedia_search" -> name <> "nlp_concept_kb_lookup" ->
  TOOLS_BY_NAME E !! name = None.
Proof.
  intros H1 H2. rewrite TOOLS_BY_NAME_lookup. now repeat case_decide.
Qed.

Lemma call_tool_unknown E tc :
  TOOLS_BY_NAME E !! tc_name tc = None ->
  call_tool E tc =
    ([], Ok (ToolMessage ("Unknown tool: " +:+ tc_name tc) (tc_name tc) (tc_id tc))).
Proof. unfold call_tool. now intros ->. Qed.

Lemma call_tool_known E tc tool_fn :
  TOOLS_BY_NAME E !! tc_name tc = Some tool_fn ->
  call_tool E tc =
    ([EvInvoke (tc_name tc) (tc_args tc)],
     match tool_invoke tool_fn (tc_args tc) with
     | Ok r => Ok (ToolMessage r (tc_name tc) (tc_id tc))
     | Err e => Err e
     end).
Proof.
  unfold call_tool. intros ->. unfold bind, emit, lift, ret.
  now destruct (tool_invoke tool_fn (tc_args tc)).
Qed.

Lemma call_tool_ok E tc :
  tool_ok E tc = true -> exists t m, call_tool E tc = (t, Ok m) /\ answers tc m.
Proof.
  unfold tool_ok. destruct (TOOLS_BY_NAME E !! tc_name tc) as [f|] eqn:Hf.
  - rewrite (call_tool_known _ _ _ Hf).
    destruct (tool_invoke f (tc_args tc)); [|discriminate].
    intros _. eexists _, _. split; [reflexivity|]. now eexists.
  - intros _. rewrite (call_tool_unknown _ _ Hf).
    eexists _, _. split; [reflexivity|]. now eexists.
Qed.

Lemma call_tools_ok E tcs :
  forallb (tool_ok E) tcs = true ->
  exists t obs, call_tools E tcs = (t, Ok obs) /\ Forall2 answers tcs obs.
Proof.
  induction tcs as [|tc rest IH]; simpl.
  - intros _. exists [], []. split; [reflexivity|constructor].
  - intros [Htc Hrest]%andb_prop.
    apply call_tool_ok in Htc as (t1 & m & Hm & Ham).
    apply IH in Hrest as (t2 & obs & Hobs & Hall).
    exists (t1 ++ t2), (m :: obs). split; [|now constructor].
    rewrite (bind_ok _ _ _ _ Hm). rewrite (bind_ok _ _ _ _ Hobs). simpl.
    now rewrite app_nil_r.
Qed.

Lemma call_tools_fail E done tc rest tool_fn e :
  forallb (tool_ok E) done = true ->
  TOOLS_BY_NAME E !! tc_name tc = Some tool_fn ->
  tool_invoke tool_fn (tc_args tc) = Err e ->
  exists t,
    call_tools E (done ++ tc :: rest)
      = (t ++ [EvInvoke (tc_name tc) (tc_args tc)], Err e).
Proof.
  intros Hdone Hf He. induction done as [|d done IH]; simpl.
  - exists []. rewrite (call_tool_known _ _ _ Hf), He. reflexivity.
  - simpl in Hdone. apply andb_prop in Hdone as [Hd Hdone].
    apply call_tool_ok in Hd as (t1 & m & Hm & _).
    destruct (IH Hdone) as (t2 & Hcalls).
    exists (t1 ++ t2). rewrite (bind_ok _ _ _ _ Hm).
    rewrite (bind_err _ _ _ _ Hcalls). simpl. now rewrite app_assoc.
Qed.

Lemma answers_ids tcs obs :
  Forall2 answers tcs obs ->
  length obs = length tcs /\ omap correlation_id obs = tc_id <$> tcs.
Proof.
  induction 1 as [|tc m tcs obs [content ->] _ [IHlen IHids]]; [easy|].
  split; simpl; now f_equal.
Qed.

Lemma last_item_snoc {A} (pre : list A) (x : A) : last_item (pre ++ [x]) = Ok x.
Proof. unfold last_item. now rewrite last_snoc. Qed.

Lemma node_tools_unfold E st pre content tcs :
  messages st = pre ++ [AIMessage content tcs] ->
  node_tools E st =
    (fst (call_tools E tcs),
     match snd (call_tools E tcs) with
     | Ok obs => Ok {| u_messages := obs; u_steps := steps st + 1 |}
     | Err e => Err e
     end).
Proof.
  intros Hlast. unfold node_tools. rewrite Hlast, last_item_snoc.
  unfold lift. simpl. destruct (call_tools E tcs) as [t [obs|e]]; simpl.
  - now rewrite app_nil_r.
  - reflexivity.
Qed.

Lemma graph_step_tools_ok E max_steps st t u :
  node_tools E st = (t, Ok u) ->
  graph_step E max_steps N_tools st
    = (EvNode N_tools :: t, Ok (To N_llm, apply_update st u)).
Proof.
  intros H. unfold graph_step. unfold emit at 1. unfold bind at 1.
  rewrite (bind_ok _ _ _ _ H). simpl. now rewrite app_nil_r.
Qed.

Lemma graph_step_tools_err E max_steps st t e :
  node_tools E st = (t, Err e) ->
  graph_step E max_steps N_tools st = (EvNode N_tools :: t, Err e).
Proof.
  intros H. unfold graph_step. unfold emit at 1. unfold bind at 1.
  now rewrite (bind_err _ _ _ _ H).
Qed.

(** C4: on a log that ends with an assistant message of N tool calls, none of
    which makes its tool raise, the tools node returns N tool messages, the
    i-th one carrying the name and the id of the i-th call, so that the ids
    of the observations are the ids of the requests in the same order (none
    missing, and none twice when the requests have distinct ids); the graph
    appends them all to the log and only then moves to the language-model
    node. *)
Theorem tools_node_observations E max_steps st pre content tcs :
  messages st = pre ++ [AIMessage content tcs] ->
  forallb (tool_ok E) tcs = true ->
  exists t obs,
    node_tools E st = (t, Ok {| u_messages := obs; u_steps := steps st + 1 |})
    /\ length obs = length tcs
    /\ Forall2 answers tcs obs
    /\ omap correlation_id obs = tc_id <$> tcs
    /\ (NoDup (tc_id <$> tcs) -> NoDup (omap correlation_id obs))
    /\ graph_step E max_steps N_tools st
         = (EvNode N_tools :: t,
            Ok (To N_llm,
                {| messages := messages st ++ obs; steps := steps st + 1 |})).
Proof.
  intros Hlast Hok.
  destruct (call_tools_ok E tcs Hok) as (t & obs & Hcalls & Hall).
  destruct (answers_ids _ _ Hall) as [Hlen Hids].
  assert (Hnode : node_tools E st
                  = (t, Ok {| u_messages := obs; u_steps := steps st + 1 |})).
  { rewrite (node_tools_unfold _ _ _ _ _ Hlast), Hcalls. reflexivity. }
  exists t, obs. repeat split; try assumption.
  - now rewrite Hids.
  - now rewrite (graph_step_tools_ok _ _ _ _ _ Hnode).
Qed.

Lemma tools_node_observations_witness :
  exists t obs,
    node_tools (Demo.greedy "sure")
      {| messages := [HumanMessage "What is BERT?";
                      AIMessage "Let me check."
                        [Demo.lookup_call "call_1" " BERT "; Demo.ghost_call "call_2"]];
         steps := 1 |}
      = (t, Ok {| u_messages := obs; u_steps := 2 |})
    /\ length obs = 2%nat
    /\ omap correlation_id obs = ["call_1"; "call_2"].
Proof.
  destruct (tools_node_observations (Demo.greedy "sure") MAX_STEPS
              {| messages := [HumanMessage "What is BERT?";
                              AIMessage "Let me check."
                                [Demo.lookup_call "call_1" " BERT ";
                                 Demo.ghost_call "call_2"]];
                 steps := 1 |}
              [HumanMessage "What is BERT?"] "Let me check."
              [Demo.lookup_call "call_1" " BERT "; Demo.ghost_call "call_2"]
              eq_refl ltac:(vm_compute; reflexivity))
    as (t & obs & Hnode & Hlen & _ & Hids & _).
  exists t, obs. auto.
Defined.

(** ** Unknown tools *)

Lemma call_tools_app_ok E a b t1 o1 t2 o2 :
  call_tools E a = (t1, Ok o1) ->
  call_tools E b = (t2, Ok o2) ->
  call_tools E (a ++ b) = (t1 ++ t2, Ok (o1 ++ o2)).
Proof.
  intros Ha Hb. revert t1 o1 Ha.
  induction a as [|x a IH]; intros t1 o1 Ha; simpl in *.
  - now injection Ha as <- <-.
  - apply bind_ok_inv in Ha as (ta & m & tb & Hm & Ha & ->).
    apply bind_ok_inv in Ha as (tc & ms & td & Hms & Ha & ->).
    injection Ha as <- <-.
    rewrite (bind_ok _ _ _ _ Hm), (bind_ok _ _ _ _ (IH _ _ Hms)). simpl.
    now rewrite !app_nil_r, app_assoc.
Qed.

(** Only a name of the registry is ever invoked. *)
Lemma call_tool_invoked E tc t r :
  call_tool E tc = (t, r) ->
  forall name, In name (invoked t) -> is_Some (TOOLS_BY_NAME E !! name).
Proof.
  destruct (TOOLS_BY_NAME E !! tc_name tc) as [f|] eqn:Hf.
  - rewrite (call_tool_known _ _ _ Hf). intros [= <- _] name [<-|[]]. now rewrite Hf.
  - rewrite (call_tool_unknown _ _ Hf). now intros [= <- _] name [].
Qed.

Lemma invoked_app t1 t2 : invoked (t1 ++ t2) = invoked t1 ++ invoked t2.
Proof.
  induction t1 as [|[n|name args] t1 IH]; simpl; [reflexivity|exact IH|now f_equal].
Qed.

Lemma call_tools_invoked E tcs : forall t r,
  call_tools E tcs = (t, r) ->
  forall name, In name (invoked t) -> is_Some (TOOLS_BY_NAME E !! name).
Proof.
  induction tcs as [|tc rest IH]; intros t r; simpl.
  - now intros [= <- _] name [].
  - destruct (call_tool E tc) as [t1 [m|e]] eqn:Hm.
    + destruct (call_tools E rest) as [t2 [ms|e]] eqn:Hms.
      * unfold bind, ret. simpl.
        intros [= <- _] name. rewrite app_nil_r, invoked_app, in_app_iff.
        intros [H|H];
          [eapply call_tool_invoked; eassumption
          |eapply IH; [reflexivity|eassumption]].
      * unfold bind. simpl.
        intros [= <- _] name. rewrite invoked_app, in_app_iff.
        intros [H|H];
          [eapply call_tool_invoked; eassumption
          |eapply IH; [reflexivity|eassumption]].
    + unfold bind. intros [= <- _] name H.
      eapply call_tool_invoked; eassumption.
Qed.

(** C5 (as amended): a request whose name is neither of the two registered
    names, compared as whole strings, is answered by a tool message whose
    content is [Unknown tool: <name>], with the name and the id of the
    request, and nothing is invoked for it; in a batch whose other requests
    do not fail, the observation takes its place among the others, no
    executable is invoked under the unknown name, and the graph goes on to
    the language-model node. *)
Theorem unknown_tool_reported E max_steps tc :
  tc_name tc <> "wikipedia_search" ->
  tc_name tc <> "nlp_concept_kb_lookup" ->
  let obs := ToolMessage ("Unknown tool: " +:+ tc_name tc) (tc_name tc) (tc_id tc) in
  call_tool E tc = ([], Ok obs)
  /\ forall st pre content before after,
       messages st = pre ++ [AIMessage content (before ++ tc :: after)] ->
       forallb (tool_ok E) (before ++ after) = true ->
       exists t o1 o2,
         graph_step E max_steps N_tools st
           = (EvNode N_tools :: t,
              Ok (To N_llm,
                  {| messages := messages st ++ o1 ++ obs :: o2;
                     steps := steps st + 1 |}))
         /\ length o1 = length before
         /\ ~ In (tc_name tc) (invoked t).
Proof.
  intros Hw Hk obs.
  pose proof (TOOLS_BY_NAME_unknown E _ Hw Hk) as Hnone.
  pose proof (call_tool_unknown E tc Hnone) as Hcall. fold obs in Hcall.
  split; [exact Hcall|].
  intros st pre content before after Hlast Hok.
  rewrite forallb_app in Hok. apply andb_prop in Hok as [Hb Ha].
  apply call_tools_ok in Hb as (t1 & o1 & Hb & Hall1).
  apply call_tools_ok in Ha as (t2 & o2 & Ha & _).
  assert (Htc : call_tools E (tc :: after) = (t2, Ok (obs :: o2))).
  { simpl. rewrite (bind_ok _ _ _ _ Hcall), (bind_ok _ _ _ _ Ha). simpl.
    now rewrite app_nil_r. }
  pose proof (call_tools_app_ok _ _ _ _ _ _ _ Hb Htc) as Hcalls.
  assert (Hnode : node_tools E st
            = (t1 ++ t2, Ok {| u_messages := o1 ++ obs :: o2;
                               u_steps := steps st + 1 |})).
  { rewrite (node_tools_unfold _ _ _ _ _ Hlast), Hcalls. reflexivity. }
  exists (t1 ++ t2), o1, o2. split; [|split].
  - now rewrite (graph_step_tools_ok _ _ _ _ _ Hnode).
  - now destruct (answers_ids _ _ Hall1).
  - intros Hin. apply (call_tools_invoked _ _ _ _ Hcalls) in Hin.
    rewrite Hnone in Hin. now destruct Hin.
Qed.

Lemma unknown_tool_reported_witness :
  call_tool (Demo.greedy "sure") (Demo.ghost_call "call_2")
    = ([], Ok (ToolMessage "Unknown tool: ghost" "ghost" "call_2")).
Proof.
  apply (proj1 (unknown_tool_reported (Demo.greedy "sure") MAX_STEPS
                  (Demo.ghost_call "call_2")
                  ltac:(discriminate) ltac:(discriminate))).
Defined.

(** C5 fails as stated: the text of the observation is not
    [unknown action: <name>]. *)
Lemma unknown_tool_text_is_not_unknown_action :
  ~ exists t m,
      call_tool (Demo.greedy "sure") (Demo.ghost_call "call_2") = (t, Ok m)
      /\ content_of m = "unknown action: ghost".
Proof.
  intros (t & m & Hcall & Hcontent).
  vm_compute in Hcall. injection Hcall as _ <-. discriminate Hcontent.
Qed.

(** ** Failures of a tool *)

(** A chain of node executions is the beginning of every run that has the
    fuel to go through it. *)
Lemma run_from_prefix E max_steps k t c c' :
  steps_to E max_steps k t c c' ->
  forall limit,
    run_from E max_steps (k + limit) (fst c) (snd c)
      = (t ++ fst (run_from E max_steps limit (fst c') (snd c')),
         snd (run_from E max_steps limit (fst c') (snd c'))).
Proof.
  induction 1 as [c|k n st t [tg st1] t' c'' Hstep Hrest IH]; intros limit.
  - simpl. now destruct (run_from E max_steps limit (fst c) (snd c)).
  - simpl. rewrite (bind_ok _ _ _ _ Hstep). simpl in *.
    rewrite (IH limit). simpl. now rewrite app_assoc.
Qed.

(** C8: when a request of the batch resolves to a tool whose [invoke] raises
    (the requests before it having gone through), the tools node raises the
    same exception: it returns no update, so no observation of the batch
    reaches the log, and the run that had come to this node ends with that
    exception. *)
Theorem tool_failure_aborts_run E max_steps k t0 c0 st pre content
    done tc rest tool_fn e limit :
  steps_to E max_steps k t0 c0 (To N_tools, st) ->
  messages st = pre ++ [AIMessage content (done ++ tc :: rest)] ->
  forallb (tool_ok E) done = true ->
  TOOLS_BY_NAME E !! tc_name tc = Some tool_fn ->
  tool_invoke tool_fn (tc_args tc) = Err e ->
  exists t,
    node_tools E st = (t ++ [EvInvoke (tc_name tc) (tc_args tc)], Err e)
    /\ run_from E max_steps (k + S limit) (fst c0) (snd c0)
         = (t0 ++ EvNode N_tools :: t ++ [EvInvoke (tc_name tc) (tc_args tc)],
            Err e).
Proof.
  intros Hreach Hlast Hdone Hf He.
  destruct (call_tools_fail E done tc rest tool_fn e Hdone Hf He) as (t & Hcalls).
  assert (Hnode : node_tools E st
                  = (t ++ [EvInvoke (tc_name tc) (tc_args tc)], Err e)).
  { rewrite (node_tools_unfold _ _ _ _ _ Hlast), Hcalls. reflexivity. }
  exists t. split; [exact Hnode|].
  rewrite (run_from_prefix _ _ _ _ _ _ Hreach (S limit)). simpl.
  now rewrite (bind_err _ _ _ _ (graph_step_tools_err _ max_steps _ _ _ Hnode)).
Qed.

Lemma tool_failure_aborts_run_witness :
  exists t,
    agent_invoke Demo.offline "Explain BPE briefly."
      = (t, Err (ToolError "wikipedia is unreachable")).
Proof.
  destruct (tool_failure_aborts_run Demo.offline MAX_STEPS 1
              [EvNode N_llm] (To N_llm, initial_state "Explain BPE briefly.")
              {| messages :=
                   [HumanMessage "Explain BPE briefly.";
                    AIMessage "Searching."
                      [Demo.ghost_call "call_1";
                       {| tc_name := "wikipedia_search";
                          tc_args := [("query", JStr "BPE")];
                          tc_id := "call_2" |};
                       Demo.lookup_call "call_3" "bert"]];
                 steps := 1 |}
              [HumanMessage "Explain BPE briefly."] "Searching."
              [Demo.ghost_call "call_1"]
              {| tc_name := "wikipedia_search";
                 tc_args := [("query", JStr "BPE")];
                 tc_id := "call_2" |}
              [Demo.lookup_call "call_3" "bert"]
              (wikipedia_search Demo.offline)
              (ToolError "wikipedia is unreachable") 23)
    as (t & _ & Hrun).
  - eapply (steps_to_next _ _ 0 N_llm _ [EvNode N_llm] _ []);
      [vm_compute; reflexivity|apply steps_to_refl].
  - reflexivity.
  - vm_compute. reflexivity.
  - vm_compute. reflexivity.
  - reflexivity.
  - eexists. etransitivity; [|exact Hrun]. vm_compute. reflexivity.
Defined.

(** ** The domain router *)

Lemma parse_route_out E content :
  parse_route E content = Some true <->
  exists payload,
    json_loads E (PyStr.strip content) = Some (JObj payload)
    /\ dict_get "route" payload = Some (JStr "out_of_domain").
Proof.
  unfold parse_route. split.
  - destruct (json_loads E _) as [[| | | | | |payload]|]; try discriminate.
    destruct (dict_get "route" payload) as [[| | | |r| |]|] eqn:Hget;
      try discriminate.
    intros [= Hr]. apply String.eqb_eq in Hr as ->. eauto.
  - intros (payload & -> & ->). reflexivity.
Qed.

Lemma run_from_first_node E max_steps limit n st :
  exists t r, run_from E max_steps (S limit) (To n) st = (EvNode n :: t, r).
Proof.
  simpl. unfold graph_step. unfold emit at 1. unfold bind at 2.
  match goal with |- context [bind (let '(t', r) := ?m in _) _] =>
    destruct m as [t1 [x|e]] end; simpl.
  - destruct (run_from E max_steps limit (fst x) (snd x)) as [t2 r]. eauto.
  - eauto.
Qed.

(** C6: whenever the router's answer does not parse to a JSON object whose
    [route] is [out_of_domain] (it is not JSON, it is JSON of another shape,
    or the object has no such field or another value in it), the router
    returns [in_domain], and the first node to run is the language-model
    node, not the refusal node. *)
Theorem router_fails_open E max_steps limit st content :
  llm_invoke E [ROUTER_SYSTEM_MESSAGE; HumanMessage (last_user_text (messages st))]
    = Ok content ->
  (forall payload,
     json_loads E (PyStr.strip content) = Some (JObj payload) ->
     dict_get "route" payload <> Some (JStr "out_of_domain")) ->
  route_domain_llm E st = Ok in_domain
  /\ invoke E max_steps limit st = run_from E max_steps limit (To N_llm) st
  /\ exists t r, invoke E max_steps (S limit) st = (EvNode N_llm :: t, r).
Proof.
  intros Hllm Hbad.
  assert (Hroute : route_domain_llm E st = Ok in_domain).
  { unfold route_domain_llm. rewrite Hllm. simpl.
    destruct (parse_route E content) as [[|]|] eqn:Hp; try reflexivity.
    apply parse_route_out in Hp as (payload & Hloads & Hget).
    now destruct (Hbad payload Hloads). }
  assert (Hinv : forall l, invoke E max_steps l st
                           = run_from E max_steps l (To N_llm) st).
  { intros l. unfold invoke. rewrite Hroute. unfold lift, bind.
    now destruct (run_from E max_steps l (To N_llm) st). }
  split; [exact Hroute|]. split; [apply Hinv|].
  rewrite Hinv. apply run_from_first_node.
Qed.

Lemma router_fails_open_witness :
  route_domain_llm (Demo.greedy "Sure! This looks like NLP.")
                   (initial_state "What is BERT?") = Ok in_domain.
Proof.
  apply (router_fails_open (Demo.greedy "Sure! This looks like NLP.")
           MAX_STEPS DEFAULT_RECURSION_LIMIT (initial_state "What is BERT?")
           "Sure! This looks like NLP." eq_refl).
  intros payload Hloads. vm_compute in Hloads. discriminate Hloads.
Defined.

(** ** The refusal path *)

Lemma invoke_out_of_domain E max_steps limit st :
  route_domain_llm E st = Ok out_of_domain ->
  invoke E max_steps (S (S limit)) st
    = ([EvNode N_out_of_domain],
       Ok {| messages := messages st ++ [SystemMessage OUT_OF_DOMAIN_TEXT];
             steps := steps st + 1 |}).
Proof.
  intros Hroute. unfold invoke. rewrite Hroute. reflexivity.
Qed.

(** The refusal path, read back from a run that ended normally. *)
Lemma run_from_out_of_domain_inv E max_steps limit st t st' :
  run_from E max_steps limit (To N_out_of_domain) st = (t, Ok st') ->
  t = [EvNode N_out_of_domain]
  /\ st' = {| messages := messages st ++ [SystemMessage OUT_OF_DOMAIN_TEXT];
              steps := steps st + 1 |}.
Proof.
  destruct limit as [|[|limit]]; [discriminate|discriminate|].
  now intros [= <- <-].
Qed.

(** C7: when the router answers [out_of_domain], the run consists of the
    refusal node alone: under any recursion limit of at least 2, as the one
    node needs, it ends normally, its log is the initial log followed by the
    one fixed refusal message, and neither the language-model node nor the
    tools node has run. *)
Theorem out_of_domain_refusal E max_steps limit st :
  route_domain_llm E st = Ok out_of_domain ->
  exists t st',
    invoke E max_steps (S (S limit)) st = (t, Ok st')
    /\ messages st' = messages st ++ [SystemMessage OUT_OF_DOMAIN_TEXT]
    /\ visits N_llm t = 0%nat
    /\ visits N_tools t = 0%nat
    /\ invoked t = [].
Proof.
  intros Hroute. eexists _, _. split.
  - apply invoke_out_of_domain, Hroute.
  - repeat split.
Qed.

Lemma out_of_domain_refusal_witness :
  exists t st',
    agent_invoke (Demo.greedy Demo.out_of_domain_payload)
                 "What's the best pizza place in Paris?" = (t, Ok st')
    /\ visits N_llm t = 0%nat.
Proof.
  destruct (out_of_domain_refusal (Demo.greedy Demo.out_of_domain_payload)
              MAX_STEPS 23 (initial_state "What's the best pizza place in Paris?")
              ltac:(vm_compute; reflexivity))
    as (t & st' & Hrun & _ & Hllm & _).
  exists t, st'. split; [exact Hrun|exact Hllm].
Defined.

(** C9: the refusal node returns exactly one message, of type [system], and
    the step count plus one; a run from step count 0 that the router rejects
    therefore ends at step count 1 (under any recursion limit of at least 2,
    as the one node needs). *)
Theorem refusal_is_system_and_counts E max_steps limit user_query :
  route_domain_llm E (initial_state user_query) = Ok out_of_domain ->
  (forall st, exists m,
      node_out_of_domain st
        = ([], Ok {| u_messages := [m]; u_steps := steps st + 1 |})
      /\ message_type m = "system")
  /\ exists t st',
       invoke E max_steps (S (S limit)) (initial_state user_query) = (t, Ok st')
       /\ steps st' = 1
       /\ (message_type <$> messages st') = ["human"; "system"].
Proof.
  intros Hroute. split.
  - intros st. eexists. split; reflexivity.
  - eexists _, _. split; [apply invoke_out_of_domain, Hroute|].
    split; reflexivity.
Qed.

Lemma refusal_is_system_and_counts_witness :
  exists t st',
    agent_invoke (Demo.greedy Demo.out_of_domain_payload)
                 "What's the best pizza place in Paris?" = (t, Ok st')
    /\ steps st' = 1.
Proof.
  destruct (proj2 (refusal_is_system_and_counts
                     (Demo.greedy Demo.out_of_domain_payload) MAX_STEPS 23
                     "What's the best pizza place in Paris?"
                     ltac:(vm_compute; reflexivity)))
    as (t & st' & Hrun & Hsteps & _).
  exists t, st'. split; [exact Hrun|exact Hsteps].
Defined.

(** ** A budget of two *)

Lemma graph_step_llm E max_steps st content tcs :
  llm_with_tools_invoke E (SYSTEM_MESSAGE :: messages st) = Ok (content, tcs) ->
  let st' := {| messages := messages st ++ [AIMessage content tcs];
                steps := steps st + 1 |} in
  graph_step E max_steps N_llm st
    = ([EvNode N_llm],
       match route_after_llm max_steps st' with
       | Ok r => Ok (match r with Continue => To N_tools | End_ => END end, st')
       | Err e => Err e
       end).
Proof.
  intros Hllm st'. subst st'. unfold graph_step, node_llm. rewrite Hllm.
  unfold emit, lift, ret, bind, apply_update, add_messages. simpl.
  match goal with
  | |- context [route_after_llm ?m ?s] => destruct (route_after_llm m s)
  end; reflexivity.
Qed.

Lemma route_after_llm_continue max_steps st pre content tc tcs :
  steps st < max_steps ->
  messages st = pre ++ [AIMessage content (tc :: tcs)] ->
  route_after_llm max_steps st = Ok Continue.
Proof.
  intros Hlt Hlast. unfold route_after_llm.
  destruct (Z.leb_spec max_steps (steps st)); [lia|].
  now rewrite Hlast, last_item_snoc.
Qed.

Lemma route_after_llm_exhausted max_steps st :
  max_steps <= steps st -> route_after_llm max_steps st = Ok End_.
Proof.
  intros Hle. unfold route_after_llm.
  destruct (Z.leb_spec max_steps (steps st)); [reflexivity|lia].
Qed.

Lemma nodes_of_app t1 t2 : nodes_of (t1 ++ t2) = nodes_of t1 ++ nodes_of t2.
Proof.
  induction t1 as [|[n|name args] t1 IH]; simpl; [reflexivity|now f_equal|exact IH].
Qed.

Lemma call_tools_nodes E tcs : forall t r,
  call_tools E tcs = (t, r) -> nodes_of t = [].
Proof.
  induction tcs as [|tc rest IH]; intros t r; simpl.
  - now intros [= <- _].
  - assert (Hone : nodes_of (fst (call_tool E tc)) = []).
    { unfold call_tool. destruct (TOOLS_BY_NAME E !! tc_name tc); [|reflexivity].
      unfold bind, emit, lift, ret.
      now destruct (tool_invoke t0 (tc_args tc)). }
    destruct (call_tool E tc) as [t1 [m|e]]; simpl in Hone.
    + destruct (call_tools E rest) as [t2 [ms|e]] eqn:Hms;
        unfold bind, ret; simpl; intros [= <- _];
        rewrite ?app_nil_r, nodes_of_app, Hone; simpl;
        now apply (IH _ _ eq_refl).
    + unfold bind. now intros [= <- _].
Qed.

(** C2 (as amended): with a budget of 2, a question the router lets through
    and a model that asks for at least one tool at every turn (no tool
    raising), the run ends normally at step count 3, not 2, under any
    recursion limit of at least 4, as its three nodes need: the
    language-model node, the tools node and the language-model node again
    have run, and nothing after them.  The answer of the second model call
    is the last message of the log, tool calls included, and they are not
    executed. *)
Theorem budget_two_never_stopping E limit user_query :
  route_domain_llm E (initial_state user_query) = Ok in_domain ->
  (forall msgs, exists content tc tcs,
      llm_with_tools_invoke E msgs = Ok (content, tc :: tcs)
      /\ forallb (tool_ok E) (tc :: tcs) = true) ->
  exists t st' c1 tcs1 obs c2 tcs2,
    invoke E 2 (4 + limit) (initial_state user_query) = (t, Ok st')
    /\ steps st' = 3
    /\ messages st'
         = [HumanMessage user_query; AIMessage c1 tcs1] ++ obs ++ [AIMessage c2 tcs2]
    /\ llm_with_tools_invoke E
         (SYSTEM_MESSAGE :: [HumanMessage user_query; AIMessage c1 tcs1] ++ obs)
         = Ok (c2, tcs2)
    /\ tcs2 <> []
    /\ Forall2 answers tcs1 obs
    /\ last (messages st') = Some (AIMessage c2 tcs2)
    /\ nodes_of t = [N_llm; N_tools; N_llm].
Proof.
  intros Hroute Hgreedy.
  set (st0 := initial_state user_query) in *.
  (* first call of the model *)
  destruct (Hgreedy (SYSTEM_MESSAGE :: messages st0))
    as (c1 & tc1 & tcs1 & Hllm1 & Hok1).
  set (st1 := {| messages := messages st0 ++ [AIMessage c1 (tc1 :: tcs1)];
                 steps := steps st0 + 1 |}).
  assert (Hstep1 : graph_step E 2 N_llm st0 = ([EvNode N_llm], Ok (To N_tools, st1))).
  { rewrite (graph_step_llm _ _ _ _ _ Hllm1). fold st1.
    rewrite (route_after_llm_continue 2 st1 (messages st0) c1 tc1 tcs1);
      [reflexivity|simpl; lia|reflexivity]. }
  (* the tools *)
  destruct (call_tools_ok E _ Hok1) as (tt & obs & Hcalls & Hall).
  set (st2 := {| messages := messages st1 ++ obs; steps := steps st1 + 1 |}).
  assert (Hnode : node_tools E st1
            = (tt, Ok {| u_messages := obs; u_steps := steps st1 + 1 |})).
  { rewrite (node_tools_unfold E st1 (messages st0) c1 (tc1 :: tcs1) eq_refl), Hcalls.
    reflexivity. }
  pose proof (graph_step_tools_ok E 2 st1 _ _ Hnode) as Hstep2.
  change (apply_update st1 _) with st2 in Hstep2.
  (* second call of the model *)
  destruct (Hgreedy (SYSTEM_MESSAGE :: messages st2))
    as (c2 & tc2 & tcs2 & Hllm2 & _).
  set (st3 := {| messages := messages st2 ++ [AIMessage c2 (tc2 :: tcs2)];
                 steps := steps st2 + 1 |}).
  assert (Hstep3 : graph_step E 2 N_llm st2 = ([EvNode N_llm], Ok (END, st3))).
  { rewrite (graph_step_llm _ _ _ _ _ Hllm2). fold st3.
    rewrite (route_after_llm_exhausted 2 st3); [reflexivity|simpl; lia]. }
  (* the run *)
  assert (Hchain : steps_to E 2 3 ([EvNode N_llm] ++ (EvNode N_tools :: tt) ++ [EvNode N_llm] ++ [])
                     (To N_llm, st0) (END, st3)).
  { repeat (econstructor; [eassumption|]). constructor. }
  pose proof (run_from_prefix _ _ _ _ _ _ Hchain (S limit)) as Hrun.
  rewrite run_from_END in Hrun. cbn [fst snd] in Hrun.
  exists ([EvNode N_llm] ++ (EvNode N_tools :: tt) ++ [EvNode N_llm]), st3,
         c1, (tc1 :: tcs1), obs, c2, (tc2 :: tcs2).
  split; [|repeat split].
  - unfold invoke. rewrite Hroute, bind_lift_ok.
    change (4 + limit)%nat with (3 + S limit)%nat. rewrite Hrun.
    f_equal. simpl. now rewrite !app_nil_r.
  - exact Hllm2.
  - discriminate.
  - exact Hall.
  - change (messages st3) with (messages st2 ++ [AIMessage c2 (tc2 :: tcs2)]).
    apply last_snoc.
  - simpl. rewrite nodes_of_app, (call_tools_nodes _ _ _ _ Hcalls). reflexivity.
Qed.

Lemma budget_two_never_stopping_witness :
  exists t st',
    invoke (Demo.greedy "sure") 2 DEFAULT_RECURSION_LIMIT
           (initial_state "What is BERT?") = (t, Ok st')
    /\ steps st' = 3.
Proof.
  destruct (budget_two_never_stopping (Demo.greedy "sure") 21 "What is BERT?")
    as (t & st' & _ & _ & _ & _ & _ & Hrun & Hsteps & _).
  - vm_compute. reflexivity.
  - intros msgs. eexists _, _, _. split; [reflexivity|vm_compute; reflexivity].
  - exists t, st'. split; [exact Hrun|exact Hsteps].
Defined.

(** C2 fails as stated: the run with a budget of 2 ends at step count 3. *)
Lemma budget_two_ends_at_three :
  exists t st',
    invoke (Demo.greedy "sure") 2 DEFAULT_RECURSION_LIMIT
           (initial_state "What is BERT?") = (t, Ok st')
    /\ steps st' <> 2.
Proof.
  eexists _, _. split; [vm_compute; reflexivity|]. discriminate.
Qed.

(** ** Termination *)

(** With a limit above [fuel_needed], the recursion limit never stops a run:
    it reaches [END], or a node raises. *)
Lemma run_from_total E max_steps limit : forall tg st,
  (fuel_needed max_steps tg st < limit)%nat ->
  (exists k t st',
      steps_to E max_steps k t (tg, st) (END, st')
      /\ run_from E max_steps limit tg st = (t, Ok st'))
  \/ (exists k t n st1 t1 e,
        steps_to E max_steps k t (tg, st) (To n, st1)
        /\ graph_step E max_steps n st1 = (t1, Err e)
        /\ run_from E max_steps limit tg st = (t ++ t1, Err e)).
Proof.
  induction limit as [|limit IH]; intros tg st Hfuel.
  - lia.
  - destruct tg as [n|].
    2:{ left. exists 0%nat, [], st. split; [constructor|reflexivity]. }
    destruct (graph_step E max_steps n st) as [t1 [[tg' st1]|e]] eqn:Hstep.
    + assert (Hfuel' : (fuel_needed max_steps tg' st1 < limit)%nat).
      { pose proof (graph_step_steps _ _ _ _ _ _ _ Hstep) as Hs.
        apply graph_step_inv in Hstep as (t0 & u & _ & _ & Hn).
        destruct n; simpl in Hfuel.
        - destruct Hn as [_ ->]. simpl. lia.
        - destruct Hn as (_ & r & Hr & ->).
          apply route_after_llm_inv in Hr. destruct r; simpl; lia.
        - destruct Hn as [_ ->]. simpl. lia. }
      destruct (IH tg' st1 Hfuel')
        as [(k & t & st' & Hchain & Hrun)
           |(k & t & n' & st2 & t2 & e & Hchain & Hraise & Hrun)].
      * left. exists (S k), (t1 ++ t), st'. split.
        -- econstructor; eassumption.
        -- simpl. rewrite (bind_ok _ _ _ _ Hstep). simpl. now rewrite Hrun.
      * right. exists (S k), (t1 ++ t), n', st2, t2, e. split; [|split].
        -- econstructor; eassumption.
        -- exact Hraise.
        -- simpl. rewrite (bind_ok _ _ _ _ Hstep). simpl.
           rewrite Hrun. cbn [fst snd]. now rewrite app_assoc.
    + right. exists 0%nat, [], n, st, t1, e. split; [constructor|].
      split; [exact Hstep|]. simpl. now rewrite (bind_err _ _ _ _ Hstep).
Qed.

(** The program's own run, from step count 0 with [MAX_STEPS = 6], needs at
    most 7 nodes, well within the default limit. *)
Lemma agent_fuel_enough user_query n :
  (fuel_needed MAX_STEPS (To n) (initial_state user_query)
   < DEFAULT_RECURSION_LIMIT)%nat.
Proof. destruct n; vm_compute; lia. Qed.


(* ===================================================================== *)
(** * Further properties of the agent *)
(* ===================================================================== *)

(** ** The edge after the language-model node *)

Lemma route_after_llm_end_inv max_steps st :
  route_after_llm max_steps st = Ok End_ ->
  max_steps <= steps st
  \/ exists m, last (messages st) = Some m /\ has_tool_calls m = false.
Proof.
  unfold route_after_llm.
  destruct (Z.leb_spec max_steps (steps st)) as [Hle|Hlt]; [now left|].
  unfold last_item. destruct (last (messages st)) as [m|]; [|discriminate].
  simpl. destruct (has_tool_calls m) eqn:Hm; [discriminate|]. right. eauto.
Qed.

(** X1: [route_after_llm] says [continue] exactly when the budget is not
    reached and the last message is an assistant message with at least one
    tool call; it raises exactly when the budget is not reached and the log is
    empty, and then with [IndexError]; at or over the budget it says [end]
    without looking at the log. *)
Theorem route_after_llm_cases max_steps st :
  (route_after_llm max_steps st = Ok Continue <->
     steps st < max_steps /\
     exists pre content tc tcs,
       messages st = pre ++ [AIMessage content (tc :: tcs)])
  /\ (forall e, route_after_llm max_steps st = Err e <->
        steps st < max_steps /\ messages st = [] /\ e = IndexError)
  /\ ((max_steps <=? steps st) = true -> route_after_llm max_steps st = Ok End_).
Proof.
  split; [|split].
  - split.
    + apply (route_after_llm_inv max_steps st Continue).
    + intros (Hlt & pre & content & tc & tcs & Hlast).
      eapply route_after_llm_continue; eassumption.
  - intros e. unfold route_after_llm.
    destruct (Z.leb_spec max_steps (steps st)) as [Hle|Hlt].
    + split; [discriminate|]. intros [Hlt _]. lia.
    + unfold last_item. destruct (last (messages st)) as [m|] eqn:Hlast; simpl.
      * split.
        -- destruct (has_tool_calls m); discriminate.
        -- intros (_ & Hnil & _). rewrite Hnil in Hlast. discriminate.
      * apply last_None in Hlast. split.
        -- intros [= <-]. auto.
        -- intros (_ & _ & ->). reflexivity.
  - intros Hle. unfold route_after_llm. now rewrite Hle.
Qed.

(** ** The tools node on a log it was not made for *)

(** X3: the tools node on a log it was not made for.  On an empty log it
    raises [IndexError]; when the last message is not an assistant message it
    raises [AttributeError]; in both cases before anything is invoked.  On an
    assistant message without tool calls it returns no message and still
    counts a step. *)
Theorem node_tools_edge_cases E pre m n :
  node_tools E {| messages := []; steps := n |} = ([], Err IndexError)
  /\ (message_type m <> "ai" ->
      node_tools E {| messages := pre ++ [m]; steps := n |}
        = ([], Err AttributeError))
  /\ (forall content,
        m = AIMessage content [] ->
        node_tools E {| messages := pre ++ [m]; steps := n |}
          = ([], Ok {| u_messages := []; u_steps := n + 1 |})).
Proof.
  split; [reflexivity|].
  assert (Hlast : last_item (pre ++ [m]) = Ok m) by apply last_item_snoc.
  split.
  - intros Hm. unfold node_tools. simpl. rewrite Hlast.
    destruct m as [c|c|c tcs|c name id]; try reflexivity. now destruct Hm.
  - intros content ->. unfold node_tools. simpl. now rewrite Hlast.
Qed.

(** ** The log only grows *)

Lemma call_tool_inv E tc t m :
  call_tool E tc = (t, Ok m) -> answers tc m.
Proof.
  destruct (TOOLS_BY_NAME E !! tc_name tc) as [f|] eqn:Hf.
  - rewrite (call_tool_known _ _ _ Hf).
    destruct (tool_invoke f (tc_args tc)); [|discriminate].
    intros [= _ <-]. now eexists.
  - rewrite (call_tool_unknown _ _ Hf). intros [= _ <-]. now eexists.
Qed.

Lemma call_tools_inv E tcs : forall t obs,
  call_tools E tcs = (t, Ok obs) -> Forall2 answers tcs obs.
Proof.
  induction tcs as [|tc rest IH]; intros t obs; simpl.
  - intros [= _ <-]. constructor.
  - intros H.
    apply bind_ok_inv in H as (t1 & m & t2 & Hm & H & _).
    apply bind_ok_inv in H as (t3 & ms & t4 & Hms & H & _).
    injection H as _ <-. constructor.
    + eapply call_tool_inv, Hm.
    + eapply IH, Hms.
Qed.

Lemma node_tools_inv E st t u :
  node_tools E st = (t, Ok u) ->
  exists pre content tcs,
    messages st = pre ++ [AIMessage content tcs]
    /\ call_tools E tcs = (t, Ok (u_messages u))
    /\ u_steps u = steps st + 1.
Proof.
  unfold node_tools. intros H.
  destruct (last_item (messages st)) as [m|e] eqn:Hl; [|discriminate].
  rewrite bind_lift_ok in H.
  unfold last_item in Hl.
  destruct (last (messages st)) as [m'|] eqn:Hlast; [|discriminate].
  injection Hl as ->. apply last_Some in Hlast as [pre Hpre].
  destruct m as [c|c|c tcs|c name id]; try discriminate.
  cbn [tool_calls_attr] in H. rewrite bind_lift_ok in H.
  apply bind_ok_inv in H as (t1 & obs & t2 & Hcalls & H & ->).
  injection H as <- <-. simpl. rewrite app_nil_r. eauto 6.
Qed.

(** What one node adds to the log. *)
Lemma graph_step_appends E max_steps n st t tg st' :
  graph_step E max_steps n st = (t, Ok (tg, st')) ->
  exists new,
    messages st' = messages st ++ new
    /\ forallb (fun m => negb (is_human m)) new = true
    /\ (n <> N_tools -> new <> []).
Proof.
  intros H. apply graph_step_inv in H as (t0 & u & _ & -> & Hn).
  exists (u_messages u). split; [reflexivity|]. destruct n.
  - destruct Hn as [Hn _]. apply node_out_of_domain_steps in Hn as [_ ->].
    split; [reflexivity|discriminate].
  - destruct Hn as [Hn _].
    apply node_llm_steps in Hn as (_ & _ & c & tcs & _ & ->).
    split; [reflexivity|discriminate].
  - destruct Hn as [Hn _]. split; [|congruence].
    apply node_tools_inv in Hn as (pre & c & tcs & _ & Hcalls & _).
    apply call_tools_inv in Hcalls.
    induction Hcalls as [|tc m tcs' obs [content ->] _ IH]; [reflexivity|exact IH].
Qed.

Lemma steps_to_appends E max_steps k t c c' :
  steps_to E max_steps k t c c' ->
  exists new,
    messages (snd c') = messages (snd c) ++ new
    /\ forallb (fun m => negb (is_human m)) new = true.
Proof.
  induction 1 as [c|k n st t [tg st1] t' c'' Hstep _ (new2 & Hnew2 & Hh2)].
  - exists []. now rewrite app_nil_r.
  - apply graph_step_appends in Hstep as (new1 & Hnew1 & Hh1 & _).
    exists (new1 ++ new2). simpl in *.
    rewrite Hnew2, Hnew1, app_assoc, forallb_app, Hh1, Hh2. auto.
Qed.

(** X4: a run never rewrites the log.  When [invoke] returns, the messages it
    was given are the beginning of the messages it returns, at least one
    message follows them, and none of those that follow is a user message. *)
Theorem log_is_append_only E max_steps limit st t st' :
  invoke E max_steps limit st = (t, Ok st') ->
  exists new,
    messages st' = messages st ++ new
    /\ new <> []
    /\ forallb (fun m => negb (is_human m)) new = true.
Proof.
  intros H. apply invoke_inv in H as (r & _ & H).
  apply run_from_node_inv in H
    as (l' & t1 & tg & st1 & t2 & _ & _ & Hstep & Hrest).
  apply graph_step_appends in Hstep as (new1 & Hnew1 & Hh1 & Hne).
  apply run_from_steps_to in Hrest as (k & _ & Hchain).
  apply steps_to_appends in Hchain as (new2 & Hnew2 & Hh2). simpl in Hnew2.
  exists (new1 ++ new2). split; [|split].
  - now rewrite Hnew2, Hnew1, app_assoc.
  - intros Hnil. apply app_eq_nil in Hnil as [Hnil _].
    revert Hnil. apply Hne. now destruct r.
  - now rewrite forallb_app, Hh1, Hh2.
Qed.

Lemma log_is_append_only_witness :
  exists new,
    [HumanMessage "What is BERT?"; SystemMessage OUT_OF_DOMAIN_TEXT]
      = [HumanMessage "What is BERT?"] ++ new
    /\ new <> [].
Proof.
  destruct (log_is_append_only (Demo.greedy Demo.out_of_domain_payload)
              MAX_STEPS DEFAULT_RECURSION_LIMIT (initial_state "What is BERT?")
              [EvNode N_out_of_domain]
              {| messages := [HumanMessage "What is BERT?";
                              SystemMessage OUT_OF_DOMAIN_TEXT];
                 steps := 1 |}
              ltac:(vm_compute; reflexivity))
    as (new & Hnew & Hne & _).
  exists new. split; [exact Hnew|exact Hne].
Defined.

(** ** The answer of a run *)

(** How a run through the loop ends: on an assistant message, which is what
    the model said of the log before it, and with tool calls left in it only
    if the budget is reached. *)
Lemma run_from_loop_end E max_steps limit : forall tg st t st',
  run_from E max_steps limit tg st = (t, Ok st') ->
  tg = To N_llm \/ tg = To N_tools ->
  exists pre content tcs,
    messages st' = pre ++ [AIMessage content tcs]
    /\ llm_with_tools_invoke E (SYSTEM_MESSAGE :: pre) = Ok (content, tcs)
    /\ (tcs = [] \/ max_steps <= steps st').
Proof.
  induction limit as [|limit IH]; intros tg st t st' H Htg.
  - destruct Htg as [-> | ->]; discriminate.
  - assert (Hn : exists n, tg = To n /\ (n = N_llm \/ n = N_tools)).
    { destruct Htg as [-> | ->]; eauto. }
    destruct Hn as (n & -> & Hn).
    apply run_from_node_inv in H
      as (l' & t1 & tg & st1 & t2 & [= <-] & _ & Hstep & Hrest).
    apply graph_step_inv in Hstep as (t0 & u & _ & Hst1 & Hnode).
    destruct Hn as [-> | ->].
    + destruct Hnode as (Hllm & r & Hr & ->).
      apply node_llm_steps in Hllm as (_ & _ & c & tcs & Hllm & Hu).
      destruct r.
      * eapply IH; [exact Hrest|auto].
      * apply run_from_END_inv in Hrest as [_ ->].
        exists (messages st), c, tcs. subst st1. unfold apply_update, add_messages.
        rewrite Hu. simpl. split; [reflexivity|]. split; [exact Hllm|].
        apply route_after_llm_end_inv in Hr as [Hle|(m & Hlast & Hm)].
        -- right. exact Hle.
        -- left. unfold apply_update, add_messages in Hlast. simpl in Hlast.
           rewrite Hu, last_snoc in Hlast. injection Hlast as <-.
           now destruct tcs.
    + destruct Hnode as [_ ->]. eapply IH; [exact Hrest|auto].
Qed.

(** X5: what the script prints.  When the agent returns, its log is not
    empty, so reading the last message never fails; the content printed is
    that of the fixed refusal, or of an assistant message that the model gave
    in answer to the whole log before it. *)
Theorem agent_answer_is_last_model_message E user_query t st' :
  agent_invoke E user_query = (t, Ok st') ->
  exists m,
    last (messages st') = Some m
    /\ agent_answer E user_query = (t, Ok (content_of m))
    /\ (m = SystemMessage OUT_OF_DOMAIN_TEXT
        \/ exists pre content tcs,
             messages st' = pre ++ [m]
             /\ m = AIMessage content tcs
             /\ llm_with_tools_invoke E (SYSTEM_MESSAGE :: pre) = Ok (content, tcs)).
Proof.
  intros Hrun.
  assert (Hlast : exists m,
    last (messages st') = Some m
    /\ (m = SystemMessage OUT_OF_DOMAIN_TEXT
        \/ exists pre content tcs,
             messages st' = pre ++ [m]
             /\ m = AIMessage content tcs
             /\ llm_with_tools_invoke E (SYSTEM_MESSAGE :: pre) = Ok (content, tcs))).
  { pose proof Hrun as H. unfold agent_invoke in H.
    apply invoke_inv in H as ([|] & Hroute & H).
    - apply run_from_loop_end in H as (pre & c & tcs & Hmsgs & Hllm & _); [|auto].
      exists (AIMessage c tcs). rewrite Hmsgs, last_snoc. split; [reflexivity|].
      right. eauto 6.
    - apply run_from_out_of_domain_inv in H as [_ ->].
      eexists. split; [reflexivity|]. now left. }
  destruct Hlast as (m & Hlast & Hm). exists m. split; [exact Hlast|].
  split; [|exact Hm].
  unfold agent_answer. rewrite (bind_ok _ _ _ _ Hrun).
  unfold last_item. rewrite Hlast. simpl. now rewrite app_nil_r.
Qed.

Lemma agent_answer_is_last_model_message_witness :
  exists t, agent_answer (Demo.greedy "sure") "What is BERT?" = (t, Ok "Let me check.").
Proof.
  destruct (agent_invoke (Demo.greedy "sure") "What is BERT?") as [t [st'|e]] eqn:Hrun;
    [|vm_compute in Hrun; discriminate Hrun].
  destruct (agent_answer_is_last_model_message _ _ _ _ Hrun) as (m & Hlast & Hans & _).
  exists t. rewrite Hans. vm_compute in Hrun. injection Hrun as _ <-.
  vm_compute in Hlast. injection Hlast as <-. reflexivity.
Defined.

(** X6: tool calls are left unanswered at the end of a run only when the
    budget stops it: if the last message of a finished run still asks for
    tools, the final step count has reached [max_steps]. *)
Theorem pending_tool_calls_mean_budget E max_steps limit st t st' pre content tc tcs :
  invoke E max_steps limit st = (t, Ok st') ->
  messages st' = pre ++ [AIMessage content (tc :: tcs)] ->
  max_steps <= steps st'.
Proof.
  intros H Hmsgs. apply invoke_inv in H as ([|] & Hroute & H).
  - apply run_from_loop_end in H as (pre' & c' & tcs' & Hmsgs' & _ & Hend); [|auto].
    rewrite Hmsgs in Hmsgs'. apply app_inj_tail in Hmsgs' as [_ [= _ <-]].
    now destruct Hend.
  - apply run_from_out_of_domain_inv in H as [_ ->]. simpl in Hmsgs.
    apply app_inj_tail in Hmsgs as [_ [=]].
Qed.

Lemma pending_tool_calls_mean_budget_witness :
  exists t st',
    invoke (Demo.greedy "sure") 2 DEFAULT_RECURSION_LIMIT
           (initial_state "What is BERT?") = (t, Ok st')
    /\ 2 <= steps st'.
Proof.
  eexists _, _. split; [vm_compute; reflexivity|].
  match goal with
  | |- _ <= steps ?s =>
      eapply (pending_tool_calls_mean_budget (Demo.greedy "sure") 2
                DEFAULT_RECURSION_LIMIT (initial_state "What is BERT?")
                _ s (removelast (messages s)))
  end.
  - vm_compute. reflexivity.
  - vm_compute. reflexivity.
Defined.

(** ** The shape and the length of a run *)

Lemma node_tools_nodes E st t r : node_tools E st = (t, r) -> nodes_of t = [].
Proof.
  unfold node_tools.
  destruct (last_item (messages st)) as [m|e]; [|now intros [= <- _]].
  rewrite bind_lift_ok.
  destruct (tool_calls_attr m) as [tcs|e]; [|now intros [= <- _]].
  rewrite bind_lift_ok.
  destruct (call_tools E tcs) as [t1 [obs|e]] eqn:Hcalls.
  - rewrite (bind_ok _ _ _ _ eq_refl). simpl. intros [= <- _].
    rewrite app_nil_r. eapply call_tools_nodes, Hcalls.
  - rewrite (bind_err _ _ _ _ eq_refl). intros [= <- _].
    eapply call_tools_nodes, Hcalls.
Qed.

(** A node leaves exactly its own mark among the nodes of the trace. *)
Lemma graph_step_nodes E max_steps n st t r :
  graph_step E max_steps n st = (t, r) -> nodes_of t = [n].
Proof.
  unfold graph_step. unfold emit at 1. unfold bind at 1. destruct n.
  - simpl. now intros [= <- _].
  - unfold node_llm.
    destruct (llm_with_tools_invoke E _) as [a|e]; simpl.
    + destruct (route_after_llm _ _); simpl; now intros [= <- _].
    + now intros [= <- _].
  - destruct (node_tools E st) as [t1 [u|e]] eqn:Hn.
    + rewrite (bind_ok _ _ _ _ eq_refl). simpl. intros [= <- _].
      rewrite app_nil_r. simpl. f_equal. eapply node_tools_nodes, Hn.
    + rewrite (bind_err _ _ _ _ eq_refl). intros [= <- _].
      simpl. f_equal. eapply node_tools_nodes, Hn.
Qed.

Lemma run_from_shape E max_steps limit : forall tg st t st',
  run_from E max_steps limit tg st = (t, Ok st') ->
  match tg with
  | END => nodes_of t = [] /\ steps st' = steps st
  | To N_out_of_domain => nodes_of t = [N_out_of_domain] /\ steps st' = steps st + 1
  | To N_llm =>
      exists rounds, nodes_of t = loop_nodes rounds
                     /\ steps st' = steps st + 2 * Z.of_nat rounds + 1
  | To N_tools =>
      exists rounds, nodes_of t = N_tools :: loop_nodes rounds
                     /\ steps st' = steps st + 2 * Z.of_nat rounds + 2
  end.
Proof.
  induction limit as [|limit IH]; intros tg st t st' H.
  - discriminate.
  - destruct tg as [n|]; [|now injection H as <- <-].
    apply run_from_node_inv in H
      as (l' & t1 & tg & st1 & t2 & [= <-] & -> & Hstep & Hrest).
    pose proof (graph_step_steps _ _ _ _ _ _ _ Hstep) as Hs1.
    pose proof (graph_step_nodes _ _ _ _ _ _ Hstep) as Hn1.
    apply graph_step_inv in Hstep as (t0 & u & _ & _ & Hn).
    apply IH in Hrest. rewrite nodes_of_app, Hn1. destruct n.
    + destruct Hn as [_ ->]. destruct Hrest as [-> ->]. auto.
    + destruct Hn as (_ & r & _ & ->). destruct r.
      * destruct Hrest as (rounds & -> & ->). exists (S rounds).
        split; [reflexivity|lia].
      * destruct Hrest as [-> ->]. exists 0%nat. split; [reflexivity|lia].
    + destruct Hn as [_ ->]. destruct Hrest as (rounds & -> & ->).
      exists rounds. split; [reflexivity|lia].
Qed.

(** X7: a run that the router lets through and that ends normally is a
    strict alternation: the language-model node, then zero or more times the
    tools node followed by the language-model node.  From step count 0, with
    [rounds] passes through the tools node, it ends at step count
    [2 * rounds + 1], and [rounds] is at most half the budget: at most 3 tool
    rounds and 4 model calls for [MAX_STEPS = 6]. *)
Theorem in_domain_run_alternates E max_steps limit st t st' :
  0 <= max_steps ->
  steps st = 0 ->
  route_domain_llm E st = Ok in_domain ->
  invoke E max_steps limit st = (t, Ok st') ->
  exists rounds,
    nodes_of t = loop_nodes rounds
    /\ steps st' = 2 * Z.of_nat rounds + 1
    /\ Z.of_nat rounds <= max_steps / 2.
Proof.
  intros Hms H0 Hroute H. unfold invoke in H.
  rewrite Hroute, bind_lift_ok in H.
  pose proof (run_from_bound _ _ _ _ _ _ _ H) as Hbound. simpl in Hbound.
  apply run_from_shape in H as (rounds & Hnodes & Hsteps).
  exists rounds. split; [exact Hnodes|]. split; [lia|].
  assert (Hle : steps st' <= step_bound max_steps).
  { apply Hbound; rewrite H0; [reflexivity|].
    pose proof (step_bound_pos max_steps Hms). lia. }
  unfold step_bound in Hle. destruct (Z.odd max_steps) eqn:Hodd.
  - apply Z.odd_spec in Hodd as [b Hb]. Z.div_mod_to_equations. lia.
  - Z.div_mod_to_equations. lia.
Qed.

Lemma in_domain_run_alternates_witness :
  exists t st' rounds,
    agent_invoke (Demo.greedy "sure") "What is BERT?" = (t, Ok st')
    /\ nodes_of t = loop_nodes rounds
    /\ Z.of_nat rounds <= 3.
Proof.
  destruct (agent_invoke (Demo.greedy "sure") "What is BERT?")
    as [t [st'|e]] eqn:Hrun; [|vm_compute in Hrun; discriminate Hrun].
  destruct (in_domain_run_alternates (Demo.greedy "sure") MAX_STEPS
              DEFAULT_RECURSION_LIMIT (initial_state "What is BERT?") t st'
              ltac:(vm_compute; discriminate) eq_refl
              ltac:(vm_compute; reflexivity) Hrun)
    as (rounds & Hnodes & _ & Hle).
  exists t, st', rounds. split; [reflexivity|]. split; [exact Hnodes|exact Hle].
Defined.

(** ** The recursion limit *)

(** Each node brings the run closer to its end. *)
Lemma fuel_needed_step E max_steps n st t tg st' :
  graph_step E max_steps n st = (t, Ok (tg, st')) ->
  (fuel_needed max_steps tg st' < fuel_needed max_steps (To n) st)%nat.
Proof.
  intros Hstep.
  pose proof (graph_step_steps _ _ _ _ _ _ _ Hstep) as Hs.
  apply graph_step_inv in Hstep as (t0 & u & _ & _ & Hn). destruct n.
  - destruct Hn as [_ ->]. simpl. lia.
  - destruct Hn as (_ & r & Hr & ->).
    apply route_after_llm_inv in Hr. destruct r; simpl; lia.
  - destruct Hn as [_ ->]. simpl. lia.
Qed.

Lemma run_from_more_fuel E max_steps limit : forall tg st,
  (fuel_needed max_steps tg st < limit)%nat ->
  run_from E max_steps (S limit) tg st = run_from E max_steps limit tg st.
Proof.
  induction limit as [|limit IH]; intros tg st Hfuel; [lia|].
  destruct tg as [n|]; [|reflexivity].
  change (run_from E max_steps (S (S limit)) (To n) st)
    with (do next <- graph_step E max_steps n st;
          run_from E max_steps (S limit) (fst next) (snd next)).
  change (run_from E max_steps (S limit) (To n) st)
    with (do next <- graph_step E max_steps n st;
          run_from E max_steps limit (fst next) (snd next)).
  destruct (graph_step E max_steps n st) as [t1 [[tg' st1]|e]] eqn:Hstep;
    [|reflexivity].
  pose proof (fuel_needed_step _ _ _ _ _ _ _ Hstep) as Hless.
  unfold bind. cbn [fst snd]. rewrite (IH tg' st1); [reflexivity|lia].
Qed.

Lemma run_from_any_fuel E max_steps tg st limit extra :
  (fuel_needed max_steps tg st < limit)%nat ->
  run_from E max_steps (limit + extra) tg st = run_from E max_steps limit tg st.
Proof.
  intros Hfuel. induction extra as [|extra IH].
  - now rewrite Nat.add_0_r.
  - rewrite Nat.add_succ_r, run_from_more_fuel; [exact IH|lia].
Qed.

(** A run never runs more nodes than [fuel_needed] says, whatever the limit
    and however it ends. *)
Lemma run_from_nodes_le E max_steps limit : forall tg st,
  (length (nodes_of (fst (run_from E max_steps limit tg st)))
   <= fuel_needed max_steps tg st)%nat.
Proof.
  induction limit as [|limit IH]; intros tg st; [simpl; lia|].
  destruct tg as [n|]; [|simpl; lia].
  change (run_from E max_steps (S limit) (To n) st)
    with (do next <- graph_step E max_steps n st;
          run_from E max_steps limit (fst next) (snd next)).
  destruct (graph_step E max_steps n st) as [t1 [[tg' st1]|e]] eqn:Hstep.
  - pose proof (graph_step_nodes _ _ _ _ _ _ Hstep) as Hn1.
    pose proof (fuel_needed_step _ _ _ _ _ _ _ Hstep) as Hless.
    specialize (IH tg' st1). unfold bind. cbn [fst snd] in *.
    destruct (run_from E max_steps limit tg' st1) as [t2 r2].
    cbn [fst] in *. rewrite nodes_of_app, Hn1. cbn [app length]. lia.
  - pose proof (graph_step_nodes _ _ _ _ _ _ Hstep) as Hn1.
    unfold bind. cbn [fst]. rewrite Hn1. destruct n; simpl; lia.
Qed.

(** X8: the budget, not the recursion limit, is what ends a run.  From step
    count 0, whatever the model, the tools and the router do, a run takes at
    most [max_steps + 1] nodes under every limit; so [invoke] with any limit
    of at least [max_steps + 2] gives the outcome and the trace it gives
    with limit [max_steps + 2], which the limit has not cut short. *)
Theorem recursion_limit_is_not_reached E max_steps limit st :
  0 <= max_steps ->
  steps st = 0 ->
  (Z.to_nat max_steps + 2 <= limit)%nat ->
  invoke E max_steps limit st = invoke E max_steps (Z.to_nat max_steps + 2) st
  /\ (forall any_limit,
        length (nodes_of (fst (invoke E max_steps any_limit st)))
        <= Z.to_nat max_steps + 1)%nat.
Proof.
  intros Hms H0 Hlimit. split.
  - unfold invoke. destruct (route_domain_llm E st) as [r|e]; [|reflexivity].
    rewrite !bind_lift_ok.
    replace limit
      with ((Z.to_nat max_steps + 2) + (limit - (Z.to_nat max_steps + 2)))%nat
      by lia.
    apply run_from_any_fuel. destruct r; simpl; rewrite ?H0; lia.
  - intros any_limit. unfold invoke.
    destruct (route_domain_llm E st) as [r|e]; [|simpl; lia].
    rewrite bind_lift_ok.
    etransitivity; [apply run_from_nodes_le|].
    destruct r; simpl; rewrite ?H0; lia.
Qed.

Lemma recursion_limit_is_not_reached_witness :
  agent_invoke (Demo.greedy "sure") "What is BERT?"
  = invoke (Demo.greedy "sure") MAX_STEPS 8 (initial_state "What is BERT?").
Proof.
  apply (proj1 (recursion_limit_is_not_reached (Demo.greedy "sure") MAX_STEPS
                  DEFAULT_RECURSION_LIMIT (initial_state "What is BERT?")
                  ltac:(vm_compute; discriminate) eq_refl
                  ltac:(vm_compute; lia))).
Defined.

(** ** What the router reads *)

Lemma last_user_text_scan (post : list message) (rest : list message) c :
  forallb (fun m => negb (is_human m)) post = true ->
  (fix scan (l : list message) : string :=
     match l with
     | [] => EmptyString
     | HumanMessage c0 :: _ => c0
     | _ :: r => scan r
     end) (rev post ++ HumanMessage c :: rest) = c.
Proof.
  induction post as [|m post IH] using rev_ind; intros Hpost.
  - reflexivity.
  - rewrite forallb_app in Hpost. apply andb_prop in Hpost as [Hpost Hm].
    rewrite rev_app_distr. simpl in *.
    destruct m; try discriminate; now apply IH.
Qed.

Lemma last_user_text_none (msgs : list message) :
  forallb (fun m => negb (is_human m)) msgs = true ->
  last_user_text msgs = EmptyString.
Proof.
  unfold last_user_text. induction msgs as [|m msgs IH] using rev_ind; intros H.
  - reflexivity.
  - rewrite forallb_app in H. apply andb_prop in H as [H Hm].
    rewrite rev_app_distr. simpl in *.
    destruct m; try discriminate; now apply IH.
Qed.

(** X9: the router classifies the most recent user message and nothing else:
    a state whose log has a user message with no user message after it is
    routed as the one-message conversation made of that message, whatever
    comes before and after; a log without any user message is routed as the
    empty question. *)
Theorem router_reads_last_user_message E st c :
  (exists pre post,
      messages st = pre ++ HumanMessage c :: post
      /\ forallb (fun m => negb (is_human m)) post = true)
  \/ (c = EmptyString /\ forallb (fun m => negb (is_human m)) (messages st) = true) ->
  last_user_text (messages st) = c
  /\ route_domain_llm E st = route_domain_llm E (initial_state c).
Proof.
  intros H.
  assert (Htext : last_user_text (messages st) = c).
  { destruct H as [(pre & post & -> & Hpost)|[-> Hnone]].
    - unfold last_user_text. rewrite rev_app_distr. simpl. rewrite <- app_assoc.
      simpl. now apply last_user_text_scan.
    - now apply last_user_text_none. }
  split; [exact Htext|]. unfold route_domain_llm. now rewrite Htext.
Qed.

Lemma router_reads_last_user_message_witness :
  route_domain_llm (Demo.greedy "sure")
    {| messages := [HumanMessage "Hello"; AIMessage "Hi!" [];
                    HumanMessage "What is BERT?";
                    AIMessage EmptyString [Demo.lookup_call "call_1" "bert"];
                    ToolMessage NOT_FOUND_JSON "nlp_concept_kb_lookup" "call_1"];
       steps := 2 |}
  = route_domain_llm (Demo.greedy "sure") (initial_state "What is BERT?").
Proof.
  apply (proj2 (router_reads_last_user_message (Demo.greedy "sure")
                  {| messages := [HumanMessage "Hello"; AIMessage "Hi!" [];
                                  HumanMessage "What is BERT?";
                                  AIMessage EmptyString [Demo.lookup_call "call_1" "bert"];
                                  ToolMessage NOT_FOUND_JSON "nlp_concept_kb_lookup" "call_1"];
                     steps := 2 |}
                  "What is BERT?"
                  (or_introl (ex_intro _ [HumanMessage "Hello"; AIMessage "Hi!" []]
                     (ex_intro _ [AIMessage EmptyString [Demo.lookup_call "call_1" "bert"];
                                  ToolMessage NOT_FOUND_JSON "nlp_concept_kb_lookup" "call_1"]
                        (conj eq_refl eq_refl)))))).
Defined.

(** ** Direct answers and failures of the model *)

(** X10: when the router lets the question through and the model answers
    without asking for a tool, the run is the language-model node alone,
    whatever the budget and under any recursion limit of at least 2, as the
    one node needs: the answer is appended, the step count grows by one and
    nothing is invoked. *)
Theorem direct_answer_ends_run E max_steps limit st content :
  route_domain_llm E st = Ok in_domain ->
  llm_with_tools_invoke E (SYSTEM_MESSAGE :: messages st) = Ok (content, []) ->
  invoke E max_steps (S (S limit)) st
    = ([EvNode N_llm],
       Ok {| messages := messages st ++ [AIMessage content []];
             steps := steps st + 1 |}).
Proof.
  intros Hroute Hllm. unfold invoke. rewrite Hroute, bind_lift_ok.
  simpl run_from. rewrite (graph_step_llm _ max_steps _ _ _ Hllm).
  assert (Hr : route_after_llm max_steps
                 {| messages := messages st ++ [AIMessage content []];
                    steps := steps st + 1 |} = Ok End_).
  { unfold route_after_llm. simpl. rewrite last_item_snoc.
    now destruct (max_steps <=? steps st + 1). }
  rewrite Hr. reflexivity.
Qed.

Lemma direct_answer_ends_run_witness :
  invoke Scenario.direct 0 2 (initial_state "What is BERT?")
  = ([EvNode N_llm],
     Ok {| messages := [HumanMessage "What is BERT?";
                        AIMessage "BERT is an encoder-only Transformer." []];
           steps := 1 |}).
Proof.
  apply (direct_answer_ends_run Scenario.direct 0 0 (initial_state "What is BERT?")
           "BERT is an encoder-only Transformer.");
    vm_compute; reflexivity.
Defined.

(** X11: a failure of the model is fatal, wherever it happens.  If the call
    of the language-model node raises, at whatever point of a run, the run
    ends there with that exception and no state.  If the router's call
    raises, [invoke] fails with that exception before any node runs. *)
Theorem model_failure_aborts_run E max_steps :
  (forall k t0 c0 st e limit,
      steps_to E max_steps k t0 c0 (To N_llm, st) ->
      llm_with_tools_invoke E (SYSTEM_MESSAGE :: messages st) = Err e ->
      run_from E max_steps (k + S limit) (fst c0) (snd c0)
        = (t0 ++ [EvNode N_llm], Err e))
  /\ (forall st e limit,
        llm_invoke E [ROUTER_SYSTEM_MESSAGE;
                      HumanMessage (last_user_text (messages st))] = Err e ->
        invoke E max_steps limit st = ([], Err e)).
Proof.
  split.
  - intros k t0 c0 st e limit Hreach Hllm.
    rewrite (run_from_prefix _ _ _ _ _ _ Hreach (S limit)). simpl.
    unfold graph_step, node_llm. rewrite Hllm. reflexivity.
  - intros st e limit Hrouter. unfold invoke, route_domain_llm.
    now rewrite Hrouter.
Qed.

Lemma model_failure_aborts_run_witness :
  run_from Scenario.broken MAX_STEPS DEFAULT_RECURSION_LIMIT (To N_llm)
           (initial_state "What is BERT?")
  = ([EvNode N_llm], Err (OracleError "connection refused"))
  /\ invoke Scenario.router_down MAX_STEPS DEFAULT_RECURSION_LIMIT
            (initial_state "What is BERT?")
     = ([], Err (OracleError "router unreachable")).
Proof.
  split.
  - apply (proj1 (model_failure_aborts_run Scenario.broken MAX_STEPS) 0%nat []
             (To N_llm, initial_state "What is BERT?")
             (initial_state "What is BERT?")
             (OracleError "connection refused") 24%nat
             (steps_to_refl _ _ _) eq_refl).
  - apply (proj2 (model_failure_aborts_run Scenario.router_down MAX_STEPS)
             (initial_state "What is BERT?")
             (OracleError "router unreachable") DEFAULT_RECURSION_LIMIT eq_refl).
Defined.

(** ** The knowledge base *)

Lemma NLP_REFERENCE_KB_lookup (key : string) :
  NLP_REFERENCE_KB !! key =
    if decide (key = "transformer") then NLP_REFERENCE_KB !! "transformer"
    else if decide (key = "self-attention") then NLP_REFERENCE_KB !! "self-attention"
    else if decide (key = "bert") then NLP_REFERENCE_KB !! "bert"
    else if decide (key = "tokenization") then NLP_REFERENCE_KB !! "tokenization"
    else None.
Proof.
  repeat case_decide; subst; try reflexivity.
  unfold NLP_REFERENCE_KB. now simplify_map_eq.
Qed.

(** X12: the lookup answers with the not-found text exactly when the
    normalised term is none of the four concepts of the knowledge base: a
    known concept never yields the error, an unknown one never yields an
    entry. *)
Theorem kb_lookup_not_found_iff (term : string) :
  nlp_concept_kb_lookup term = NOT_FOUND_JSON <->
  ~ In (PyStr.strip (PyStr.lower term))
       ["transformer"; "self-attention"; "bert"; "tokenization"].
Proof.
  unfold nlp_concept_kb_lookup. rewrite NLP_REFERENCE_KB_lookup. simpl.
  repeat case_decide.
  - split; [vm_compute; discriminate|]. intros Hn. destruct Hn. auto.
  - split; [vm_compute; discriminate|]. intros Hn. destruct Hn. auto.
  - split; [vm_compute; discriminate|]. intros Hn. destruct Hn. auto.
  - split; [vm_compute; discriminate|]. intros Hn. destruct Hn. auto 6.
  - split; [|reflexivity]. intros _ [Hc|[Hc|[Hc|[Hc|[]]]]]; congruence.
Qed.

(** ** Which tools a batch invokes *)

Lemma call_tool_invoked_names E tc t r :
  call_tool E tc = (t, r) ->
  invoked t = if resolves E tc then [tc_name tc] else [].
Proof.
  unfold resolves. destruct (TOOLS_BY_NAME E !! tc_name tc) as [f|] eqn:Hf.
  - rewrite (call_tool_known _ _ _ Hf). now intros [= <- _].
  - rewrite (call_tool_unknown _ _ Hf). now intros [= <- _].
Qed.

Lemma call_tools_invoked_names E tcs : forall t obs,
  call_tools E tcs = (t, Ok obs) ->
  invoked t = tc_name <$> List.filter (resolves E) tcs.
Proof.
  induction tcs as [|tc rest IH]; intros t obs; simpl.
  - now intros [= <- _].
  - intros H.
    apply bind_ok_inv in H as (t1 & m & t2 & Hm & H & ->).
    apply bind_ok_inv in H as (t3 & ms & t4 & Hms & H & ->).
    injection H as <- _. rewrite app_nil_r, invoked_app.
    rewrite (call_tool_invoked_names _ _ _ _ Hm), (IH _ _ Hms).
    now destruct (resolves E tc).
Qed.

(** X13: in a round of the tools node that succeeds, the tools invoked are
    those of the requests that name a registered tool, once each and in the
    order of the requests; a request with an unknown name invokes nothing,
    yet every request gets its message. *)
Theorem tools_round_invokes_resolved_requests E st pre content tcs t u :
  messages st = pre ++ [AIMessage content tcs] ->
  node_tools E st = (t, Ok u) ->
  invoked t = tc_name <$> List.filter (resolves E) tcs
  /\ length (u_messages u) = length tcs
  /\ nodes_of t = [].
Proof.
  intros Hlast Hnode.
  pose proof (node_tools_nodes _ _ _ _ Hnode) as Hnodes.
  apply node_tools_inv in Hnode as (pre' & c' & tcs' & Hlast' & Hcalls & _).
  rewrite Hlast in Hlast'. apply app_inj_tail in Hlast' as [_ [= _ <-]].
  split; [eapply call_tools_invoked_names, Hcalls|].
  split; [|exact Hnodes].
  apply call_tools_inv in Hcalls. now destruct (answers_ids _ _ Hcalls).
Qed.

Lemma tools_round_invokes_resolved_requests_witness :
  exists t u,
    node_tools (Demo.greedy "sure")
      {| messages := [AIMessage "Let me check."
                        [Demo.ghost_call "call_1";
                         Demo.lookup_call "call_2" "bert";
                         Demo.ghost_call "call_3"]];
         steps := 1 |} = (t, Ok u)
    /\ invoked t = ["nlp_concept_kb_lookup"]
    /\ length (u_messages u) = 3%nat.
Proof.
  destruct (node_tools (Demo.greedy "sure")
      {| messages := [AIMessage "Let me check."
                        [Demo.ghost_call "call_1";
                         Demo.lookup_call "call_2" "bert";
                         Demo.ghost_call "call_3"]];
         steps := 1 |}) as [t [u|e]] eqn:Hnode;
    [|vm_compute in Hnode; discriminate Hnode].
  destruct (tools_round_invokes_resolved_requests (Demo.greedy "sure")
              {| messages := [AIMessage "Let me check."
                                [Demo.ghost_call "call_1";
                                 Demo.lookup_call "call_2" "bert";
                                 Demo.ghost_call "call_3"]];
                 steps := 1 |} []
              "Let me check."
              [Demo.ghost_call "call_1"; Demo.lookup_call "call_2" "bert";
               Demo.ghost_call "call_3"] t u eq_refl Hnode)
    as (Hinv & Hlen & _).
  exists t, u. split; [reflexivity|]. split; [exact Hinv|exact Hlen].
Defined.

Lemma call_tools_fail_exact E done tc rest tool_fn e t obs :
  call_tools E done = (t, Ok obs) ->
  TOOLS_BY_NAME E !! tc_name tc = Some tool_fn ->
  tool_invoke tool_fn (tc_args tc) = Err e ->
  call_tools E (done ++ tc :: rest)
    = (t ++ [EvInvoke (tc_name tc) (tc_args tc)], Err e).
Proof.
  intros Hdone Hf He. revert t obs Hdone.
  induction done as [|d done IH]; intros t obs Hdone; simpl in *.
  - injection Hdone as <- _. rewrite (call_tool_known _ _ _ Hf), He. reflexivity.
  - apply bind_ok_inv in Hdone as (t1 & m & t2 & Hm & Hdone & ->).
    apply bind_ok_inv in Hdone as (t3 & ms & t4 & Hms & Hdone & ->).
    injection Hdone as <- _.
    rewrite (bind_ok _ _ _ _ Hm), (bind_err _ _ _ _ (IH _ _ Hms)). simpl.
    now rewrite app_nil_r, app_assoc.
Qed.

(** X14: the tools node stops at the first tool that raises.  The requests
    before it have been served, the failing tool has been invoked, and no
    request after it is looked at: the trace and the exception are the same
    whatever follows in the batch. *)
Theorem tools_round_stops_at_first_failure E st pre content
    done tc rest tool_fn e :
  messages st = pre ++ [AIMessage content (done ++ tc :: rest)] ->
  forallb (tool_ok E) done = true ->
  TOOLS_BY_NAME E !! tc_name tc = Some tool_fn ->
  tool_invoke tool_fn (tc_args tc) = Err e ->
  exists t,
    node_tools E st = (t, Err e)
    /\ invoked t = (tc_name <$> List.filter (resolves E) done) ++ [tc_name tc]
    /\ forall st2 pre2 content2 rest2,
         messages st2 = pre2 ++ [AIMessage content2 (done ++ tc :: rest2)] ->
         node_tools E st2 = (t, Err e).
Proof.
  intros Hlast Hdone Hf He.
  destruct (call_tools_ok E done Hdone) as (t1 & obs & Hcalls & _).
  pose proof (fun rest0 =>
                call_tools_fail_exact E done tc rest0 tool_fn e t1 obs Hcalls Hf He)
    as Hfail.
  exists (t1 ++ [EvInvoke (tc_name tc) (tc_args tc)]). split; [|split].
  - rewrite (node_tools_unfold _ _ _ _ _ Hlast), Hfail. reflexivity.
  - rewrite invoked_app, (call_tools_invoked_names _ _ _ _ Hcalls). reflexivity.
  - intros st2 pre2 content2 rest2 Hlast2.
    rewrite (node_tools_unfold _ _ _ _ _ Hlast2), Hfail. reflexivity.
Qed.

Lemma tools_round_stops_at_first_failure_witness :
  exists t,
    node_tools Demo.offline
      {| messages := [AIMessage "Searching."
                        [Demo.lookup_call "call_1" "bert";
                         {| tc_name := "wikipedia_search";
                            tc_args := [("query", JStr "BPE")]; tc_id := "call_2" |};
                         Demo.lookup_call "call_3" "bert"]];
         steps := 1 |}
      = (t, Err (ToolError "wikipedia is unreachable"))
    /\ invoked t = ["nlp_concept_kb_lookup"; "wikipedia_search"].
Proof.
  destruct (tools_round_stops_at_first_failure Demo.offline
              {| messages := [AIMessage "Searching."
                                [Demo.lookup_call "call_1" "bert";
                                 {| tc_name := "wikipedia_search";
                                    tc_args := [("query", JStr "BPE")];
                                    tc_id := "call_2" |};
                                 Demo.lookup_call "call_3" "bert"]];
                 steps := 1 |}
              [] "Searching." [Demo.lookup_call "call_1" "bert"]
              {| tc_name := "wikipedia_search";
                 tc_args := [("query", JStr "BPE")]; tc_id := "call_2" |}
              [Demo.lookup_call "call_3" "bert"]
              (wikipedia_search Demo.offline)
              (ToolError "wikipedia is unreachable")
              eq_refl ltac:(vm_compute; reflexivity)
              ltac:(vm_compute; reflexivity) eq_refl)
    as (t & Hnode & Hinv & _).
  exists t. split; [exact Hnode|exact Hinv].
Defined.

(* ===================================================================== *)
(** * Properties of the manual tool-calling loop *)
(* ===================================================================== *)

Module ToolCallingFacts.
Import ToolCalling.

Lemma rows_with_unknown df tid : known_id df tid = false -> rows_with df tid = [].
Proof.
  unfold known_id, rows_with. induction df as [|row df IH]; simpl; [reflexivity|].
  destruct (String.eqb (transaction_id row) tid); [discriminate|exact IH].
Qed.

Lemma find_known df tid :
  known_id df tid = false ->
  List.find (fun row => String.eqb (transaction_id row) tid) df = None.
Proof.
  unfold known_id. induction df as [|row df IH]; simpl; [reflexivity|].
  destruct (String.eqb (transaction_id row) tid); [discriminate|exact IH].
Qed.

Lemma known_id_elem df tid :
  known_id df tid = true -> tid ∈ (transaction_id <$> df).
Proof.
  unfold known_id. induction df as [|row df IH]; simpl; [discriminate|].
  destruct (String.eqb (transaction_id row) tid) eqn:Hrow.
  - apply String.eqb_eq in Hrow as <-. intros _. left.
  - intros H. right. now apply IH.
Qed.

(** With distinct ids, the rows of an id are the row [find] meets first. *)
Lemma rows_with_distinct df tid :
  NoDup (transaction_id <$> df) ->
  rows_with df tid
    = match List.find (fun row => String.eqb (transaction_id row) tid) df with
      | Some row => [row]
      | None => []
      end.
Proof.
  unfold rows_with. induction df as [|row df IH]; simpl; [reflexivity|].
  intros Hnodup. apply NoDup_cons in Hnodup as [Hfresh Hnodup].
  destruct (String.eqb (transaction_id row) tid) eqn:Hrow.
  - f_equal. apply String.eqb_eq in Hrow as <-.
    destruct (known_id df (transaction_id row)) eqn:Hknown.
    + now apply known_id_elem in Hknown.
    + now apply rows_with_unknown.
  - now apply IH.
Qed.

(** X15: on a table whose transaction ids are distinct, as those of
    [data_df] are, neither tool raises: for an id of the table each returns
    the JSON object with the status, or the amount, of the row of that id,
    and for any other text the not-found object.  The id is compared as it
    is, with no normalisation. *)
Theorem retrieve_on_distinct_ids df tid :
  NoDup (transaction_id <$> df) ->
  let row := List.find (fun row => String.eqb (transaction_id row) tid) df in
  retrieve_payment_status_on df tid
    = Ok (match row with
          | Some r => Json.dumps (JObj [("status", JStr (payment_status r))])
          | None => Json.dumps NOT_FOUND
          end)
  /\ retrieve_amount_on df tid
    = Ok (match row with
          | Some r => Json.dumps (JObj [("amount", JFloat (payment_amount r))])
          | None => Json.dumps NOT_FOUND
          end).
Proof.
  intros Hnodup row. subst row.
  unfold retrieve_payment_status_on, retrieve_amount_on.
  rewrite (rows_with_distinct df tid Hnodup).
  destruct (known_id df tid) eqn:Hknown.
  - destruct (List.find _ df) as [r|] eqn:Hfind; [split; reflexivity|].
    exfalso. unfold known_id in Hknown. apply existsb_exists in Hknown as (r & Hin & Hr).
    now rewrite (find_none _ _ Hfind r Hin) in Hr.
  - now rewrite (find_known df tid Hknown).
Qed.

Lemma data_df_distinct : NoDup (transaction_id <$> data_df).
Proof. apply (bool_decide_unpack _). vm_compute. exact I. Qed.

Lemma retrieve_on_distinct_ids_witness :
  retrieve_payment_status "T1005" = Ok (Json.dumps (JObj [("status", JStr "Pending")]))
  /\ retrieve_amount "t1005" = Ok (Json.dumps NOT_FOUND).
Proof.
  split.
  - apply (proj1 (retrieve_on_distinct_ids data_df "T1005" data_df_distinct)).
  - apply (proj2 (retrieve_on_distinct_ids data_df "t1005" data_df_distinct)).
Defined.

Lemma registry_names (name : string) tool_fn :
  tool_names_to_functions !! name = Some tool_fn -> tool_name tool_fn = name.
Proof.
  unfold tool_names_to_functions. simpl. intros H.
  destruct (decide (name = "retrieve_amount")) as [->|Ha].
  - rewrite lookup_insert_eq in H. now injection H as <-.
  - rewrite lookup_insert_ne in H by congruence.
    destruct (decide (name = "retrieve_payment_status")) as [->|Hs].
    + rewrite lookup_insert_eq in H. now injection H as <-.
    + rewrite lookup_insert_ne in H by congruence. discriminate.
Qed.

Lemma run_tool_calls_ok tcs : forall log,
  forallb call_succeeds tcs = true ->
  exists t tool_messages,
    run_tool_calls tcs log = (t, Ok (log ++ tool_messages))
    /\ omap correlation_id tool_messages = tc_id <$> served tcs
    /\ invoked t = tc_name <$> served tcs
    /\ length tool_messages = length (served tcs).
Proof.
  induction tcs as [|tc rest IH]; intros log Hok.
  - exists [], []. simpl. now rewrite app_nil_r.
  - simpl in Hok. apply andb_prop in Hok as [Htc Hrest].
    unfold call_succeeds in Htc. unfold served. simpl.
    destruct (tool_names_to_functions !! tc_name tc) as [f|] eqn:Hf.
    + destruct (tool_invoke f (tc_args tc)) as [content|e] eqn:Hinvoke;
        [|discriminate].
      pose proof (registry_names _ _ Hf) as Hname.
      destruct (IH (log ++ [ToolMessage content (tool_name f) (tc_id tc)]) Hrest)
        as (t & tms & Hrun & Hids & Hinv & Hlen).
      exists (EvInvoke (tool_name f) (tc_args tc) :: t),
             (ToolMessage content (tool_name f) (tc_id tc) :: tms).
      split; [|split; [|split]].
      * unfold invoke_with_call, emit, lift, ret, bind. rewrite Hinvoke. simpl.
        rewrite Hrun. now rewrite <- app_assoc.
      * simpl. f_equal. exact Hids.
      * simpl. rewrite Hname. f_equal. exact Hinv.
      * simpl. f_equal. exact Hlen.
    + apply IH, Hrest.
Qed.

(** X16: one turn of the manual loop.  If the first answer of the model asks
    for no tool, it is the final message and the model is not called again.
    Otherwise the calls that name one of the two tools are invoked in order,
    one tool message each with the id of its call, a call with any other
    name is skipped without a message, and the final message is what the
    model says of the log extended with those tool messages. *)
Theorem manual_loop_turn llm_with_tools query content tcs :
  llm_with_tools [system_message; HumanMessage query] = Ok (content, tcs) ->
  forallb call_succeeds tcs = true ->
  let log := [system_message; HumanMessage query; AIMessage content tcs] in
  exists t tool_messages,
    omap correlation_id tool_messages = tc_id <$> served tcs
    /\ invoked t = tc_name <$> served tcs
    /\ length tool_messages = length (served tcs)
    /\ answer llm_with_tools query =
         match tcs with
         | [] => ([], Ok (log, AIMessage content []))
         | _ :: _ =>
             (t, match llm_with_tools (log ++ tool_messages) with
                 | Ok final =>
                     Ok (log ++ tool_messages, AIMessage (fst final) (snd final))
                 | Err e => Err e
                 end)
         end.
Proof.
  intros Hllm Hok log.
  destruct (run_tool_calls_ok tcs log Hok) as (t & tms & Hrun & Hids & Hinv & Hlen).
  exists t, tms. split; [exact Hids|]. split; [exact Hinv|]. split; [exact Hlen|].
  unfold answer. rewrite Hllm, bind_lift_ok. cbn [fst snd].
    destruct tcs as [|tc tcs']; [reflexivity|].
    fold log. rewrite (bind_ok _ _ _ _ Hrun). cbn [fst snd].
  destruct (llm_with_tools (log ++ tms)) as [final|e]; simpl;
    now rewrite ?app_nil_r.
Qed.

Lemma manual_loop_turn_witness :
  exists t tool_messages,
    invoked t = ["retrieve_payment_status"; "retrieve_amount"]
    /\ omap correlation_id tool_messages = ["call_a"; "call_c"]
    /\ length tool_messages = 2%nat.
Proof.
  destruct (manual_loop_turn scripted "Is order T1002 paid?" EmptyString
              [ {| tc_name := "retrieve_payment_status";
                   tc_args := [("transaction_id", JStr "T1002")]; tc_id := "call_a" |};
                {| tc_name := "refund"; tc_args := []; tc_id := "call_b" |};
                {| tc_name := "retrieve_amount";
                   tc_args := [("transaction_id", JStr "T1002")]; tc_id := "call_c" |} ]
              eq_refl ltac:(vm_compute; reflexivity))
    as (t & tms & Hids & Hinv & Hlen & _).
  exists t, tms. split; [exact Hinv|]. split; [exact Hids|exact Hlen].
Defined.

End ToolCallingFacts.

(* ===================================================================== *)
(** * The knowledge-base lookup on every string *)
(* ===================================================================== *)

Module UnicodeFacts.
Import Unicode.

(** *** Lower-casing is idempotent *)

(** No code point that the table produces is itself changed by [lower]. *)
Lemma lower_table_targets_stable :
  forallb (fun entry => stable (snd entry)) lower_table = true.
Proof. vm_compute. reflexivity. Qed.

Lemma simple_lower_stable c l : simple_lower c = Some l -> stable l = true.
Proof.
  unfold simple_lower.
  destruct (List.find _ lower_table) as [entry|] eqn:Hfind; [|discriminate].
  intros [= <-]. apply find_some in Hfind as [Hin _].
  pose proof lower_table_targets_stable as Hall.
  rewrite forallb_forall in Hall. exact (Hall entry Hin).
Qed.

Lemma stable_sigmas : stable 962 = true /\ stable 963 = true.
Proof. split; vm_compute; reflexivity. Qed.

Lemma stable_dotted_i : stable 105 = true /\ stable 775 = true.
Proof. split; vm_compute; reflexivity. Qed.

Lemma lower_ucs4_stable before c after :
  forallb stable (lower_ucs4 before c after) = true.
Proof.
  unfold lower_ucs4. destruct (c =? 931)%N eqn:Hsigma.
  - cbn [forallb]. rewrite andb_true_r.
    unfold handle_capital_sigma.
    destruct (first_not_ignorable before) as [x|]; [|apply stable_sigmas].
    destruct (cased x); [|apply stable_sigmas].
    destruct (first_not_ignorable after) as [y|]; [|apply stable_sigmas].
    destruct (cased y); apply stable_sigmas.
  - unfold to_lower_full. destruct (c =? 304)%N eqn:Hdot.
    + cbn [forallb]. destruct stable_dotted_i as [-> ->]. reflexivity.
    + destruct (simple_lower c) as [l|] eqn:Hl; cbn [forallb];
        rewrite andb_true_r.
      * eapply simple_lower_stable, Hl.
      * unfold stable. now rewrite Hsigma, Hdot, Hl.
Qed.

Lemma lower_from_stable s : forall before,
  forallb stable (lower_from before s) = true.
Proof.
  induction s as [|c after IH]; intros before; [reflexivity|].
  cbn [lower_from]. rewrite forallb_app, lower_ucs4_stable. apply IH.
Qed.

Lemma lower_ucs4_of_stable before c after :
  stable c = true -> lower_ucs4 before c after = [c].
Proof.
  unfold stable, lower_ucs4, to_lower_full. intros H.
  apply andb_prop in H as [H Hl]. apply andb_prop in H as [Hsigma Hdot].
  apply negb_true_iff in Hsigma, Hdot. rewrite Hsigma, Hdot.
  now destruct (simple_lower c).
Qed.

Lemma lower_from_of_stable s : forall before,
  forallb stable s = true -> lower_from before s = s.
Proof.
  induction s as [|c after IH]; intros before H; [reflexivity|].
  cbn [forallb] in H. apply andb_prop in H as [Hc Hafter].
  cbn [lower_from]. rewrite (lower_ucs4_of_stable _ _ _ Hc), (IH _ Hafter).
  reflexivity.
Qed.

(** *** Stripping *)

Lemma lstrip_forallb (P : N -> bool) s :
  forallb P s = true -> forallb P (lstrip s) = true.
Proof.
  induction s as [|c r IH]; [trivial|]. cbn [lstrip forallb]. intros H.
  destruct (isspace c); [|exact H].
  apply andb_prop in H as [_ H]. now apply IH.
Qed.

Lemma rstrip_forallb (P : N -> bool) s :
  forallb P s = true -> forallb P (rstrip s) = true.
Proof.
  induction s as [|c r IH]; [trivial|]. cbn [rstrip forallb]. intros H.
  apply andb_prop in H as [Hc Hr]. specialize (IH Hr).
  destruct (rstrip r) as [|c' r'].
  - destruct (isspace c); [reflexivity|]. cbn [forallb]. now rewrite Hc.
  - cbn [forallb] in *. now rewrite Hc.
Qed.

Lemma lstrip_is_trimmed s : trimmed_left (lstrip s).
Proof.
  induction s as [|c r IH]; [exact I|]. cbn [lstrip].
  destruct (isspace c) eqn:Hc; [exact IH|exact Hc].
Qed.

Lemma lstrip_fixed s : trimmed_left s -> lstrip s = s.
Proof. destruct s as [|c r]; [reflexivity|]. cbn. now intros ->. Qed.

Lemma rstrip_keeps_trimmed s : trimmed_left s -> trimmed_left (rstrip s).
Proof.
  destruct s as [|c r]; [trivial|]. cbn [rstrip trimmed_left]. intros Hc.
  destruct (rstrip r); [rewrite Hc|]; exact Hc.
Qed.

Lemma rstrip_twice s : rstrip (rstrip s) = rstrip s.
Proof.
  induction s as [|c r IH]; [reflexivity|]. cbn [rstrip].
  destruct (rstrip r) as [|c' r'] eqn:Hr.
  - destruct (isspace c) eqn:Hc; [reflexivity|]. cbn [rstrip]. now rewrite Hc.
  - change (rstrip (c :: c' :: r'))
      with (match rstrip (c' :: r') with
            | [] => if isspace c then [] else [c]
            | r0 => c :: r0
            end).
    now rewrite IH.
Qed.

Lemma strip_twice s : strip (strip s) = strip s.
Proof.
  unfold strip. rewrite (lstrip_fixed (rstrip (lstrip s))).
  - apply rstrip_twice.
  - apply rstrip_keeps_trimmed, lstrip_is_trimmed.
Qed.

(** [t.lower().strip()] is a normal form: lower-casing it again changes
    nothing, since none of its code points is one that [lower] changes, and
    neither does stripping it again. *)
Lemma normal_form_idem s : strip (lower (strip (lower s))) = strip (lower s).
Proof.
  assert (Hstable : forallb stable (strip (lower s)) = true).
  { unfold strip. apply rstrip_forallb, lstrip_forallb, lower_from_stable. }
  unfold lower at 1. rewrite (lower_from_of_stable _ _ Hstable).
  apply strip_twice.
Qed.

(** *** The agent model is the restriction to the code points below 256 *)

Lemma lower_ucs4_below_256 before (c : ascii) after :
  lower_ucs4 before (N_of_ascii c) after = [N_of_ascii (PyStr.lower_char c)].
Proof. destruct c as [[] [] [] [] [] [] [] []]; vm_compute; reflexivity. Qed.

Lemma isspace_below_256 (c : ascii) : isspace (N_of_ascii c) = PyStr.isspace c.
Proof. destruct c as [[] [] [] [] [] [] [] []]; vm_compute; reflexivity. Qed.

Lemma lower_from_of_string s : forall before,
  lower_from before (of_string s) = of_string (PyStr.lower s).
Proof.
  induction s as [|c r IH]; intros before; [reflexivity|].
  cbn [of_string lower_from PyStr.lower].
  now rewrite lower_ucs4_below_256, IH.
Qed.

Lemma lstrip_of_string s : lstrip (of_string s) = of_string (PyStr.lstrip s).
Proof.
  induction s as [|c r IH]; [reflexivity|].
  cbn [of_string lstrip PyStr.lstrip]. rewrite isspace_below_256.
  destruct (PyStr.isspace c); [exact IH|reflexivity].
Qed.

Lemma rstrip_of_string s : rstrip (of_string s) = of_string (PyStr.rstrip s).
Proof.
  induction s as [|c r IH]; [reflexivity|].
  cbn [of_string rstrip PyStr.rstrip]. rewrite IH, isspace_below_256.
  destruct (PyStr.rstrip r); cbn [of_string]; [|reflexivity].
  now destruct (PyStr.isspace c).
Qed.

Lemma to_string_of_string s : to_string (of_string s) = Some s.
Proof.
  induction s as [|c r IH]; [reflexivity|]. cbn [of_string to_string].
  pose proof (N_ascii_bounded c) as Hc. apply N.ltb_lt in Hc. rewrite Hc, IH.
  cbn. now rewrite ascii_N_embedding.
Qed.

Lemma normalise_of_string s :
  strip (lower (of_string s)) = of_string (PyStr.strip (PyStr.lower s)).
Proof.
  unfold strip, lower, PyStr.strip.
  now rewrite lower_from_of_string, lstrip_of_string, rstrip_of_string.
Qed.

End UnicodeFacts.

(** On a string of the agent model, the lookup is the one the agent's tool
    runs. *)
Lemma unicode_lookup_of_string (s : string) :
  Unicode.nlp_concept_kb_lookup (Unicode.of_string s) = nlp_concept_kb_lookup s.
Proof.
  unfold Unicode.nlp_concept_kb_lookup, nlp_concept_kb_lookup, Unicode.kb_get.
  now rewrite UnicodeFacts.normalise_of_string, UnicodeFacts.to_string_of_string.
Qed.

(** C10: for every string [term], a sequence of Unicode code points on which
    [lower] and [strip] are those of Python, the lookup of [term] is the
    lookup of [term.lower().strip()]; a term whose normal form is not a key
    of the knowledge base gets the JSON text of the not-found error, not an
    exception; and on a term without code points above 255 this lookup is
    the one of the agent model, which its tool runs. *)
Theorem kb_lookup_normalised (term : list N) :
  Unicode.nlp_concept_kb_lookup term
    = Unicode.nlp_concept_kb_lookup (Unicode.strip (Unicode.lower term))
  /\ (Unicode.kb_get (Unicode.strip (Unicode.lower term)) = None ->
      Unicode.nlp_concept_kb_lookup term = NOT_FOUND_JSON)
  /\ (forall s,
        term = Unicode.of_string s ->
        nlp_concept_kb_lookup s = Unicode.nlp_concept_kb_lookup term
        /\ tool_invoke nlp_concept_kb_lookup_tool [("term", JStr s)]
           = Ok (Unicode.nlp_concept_kb_lookup term)).
Proof.
  split; [|split].
  - unfold Unicode.nlp_concept_kb_lookup.
    now rewrite UnicodeFacts.normal_form_idem.
  - intros Hnone. unfold Unicode.nlp_concept_kb_lookup. rewrite Hnone.
    vm_compute. reflexivity.
  - intros s ->. rewrite unicode_lookup_of_string. split; reflexivity.
Qed.

(** The Kelvin sign U+212A lower-cases to [k] and the em space U+2003 is
    white space: a term spelled with them is found. *)
Example kb_lookup_kelvin_sign :
  Unicode.nlp_concept_kb_lookup
    ([8195; 84; 79; 8490] ++ Unicode.of_string "ENIZATION" ++ [8195])%N
  = nlp_concept_kb_lookup "tokenization".
Proof. vm_compute. reflexivity. Qed.

Lemma kb_lookup_normalised_witness :
  Unicode.kb_get
    (Unicode.strip (Unicode.lower ([8195; 71; 80; 84; 8490; 931; 8195]%N))) = None
  /\ Unicode.nlp_concept_kb_lookup [8195; 71; 80; 84; 8490; 931; 8195]%N
     = NOT_FOUND_JSON.
Proof.
  split; [vm_compute; reflexivity|].
  apply (proj1 (proj2 (kb_lookup_normalised [8195; 71; 80; 84; 8490; 931; 8195]%N))).
  vm_compute. reflexivity.
Defined.
